(** * datamart: index builder and augmentation engine

    A shallow embedding of [datamart/index_builder.py] and
    [datamart/augment.py].  Python methods that read and write the
    [IndexBuilder] / [Augment] instance, the Elasticsearch index and the
    file system are functions in a state-and-exception monad: the state
    survives a raised exception, as it does in Python.  The collaborators
    whose code lives in other modules of the package (the index manager,
    the query manager, the profiler, the schema validator, the
    materializer, the joiners) are records of operations. *)

From Stdlib Require Import ZArith String Ascii List Sorted DecimalString Lia.
From stdpp Require Import gmap strings list.

Open Scope Z_scope.

(** ** Python runtime: exceptions and the state-and-exception monad *)

Inductive exn : Type :=
  | ValueError (msg : string)
  | TypeError (msg : string)
  | IndexError (msg : string)
  | KeyError (msg : string)
  | OSError (msg : string)
  | ValidationError (msg : string)
  | ConnectionError (msg : string)
  | RuntimeError (msg : string).

Inductive result (A : Type) : Type :=
  | Ok (a : A)
  | Raise (e : exn).
Arguments Ok {A} a.
Arguments Raise {A} e.

(** What the process prints or warns about. *)
Inductive output : Type :=
  | Print (s : string)
  | Warn (s : string)
  | PrintExc (e : exn).

Definition M (St A : Type) : Type := St -> result A * St.

Definition ret {St A} (a : A) : M St A := fun s => (Ok a, s).
Definition raise {St A} (e : exn) : M St A := fun s => (Raise e, s).
Definition bind {St A B} (m : M St A) (k : A -> M St B) : M St B :=
  fun s => match m s with
           | (Ok a, s') => k a s'
           | (Raise e, s') => (Raise e, s')
           end.
(** [try: m except: h] with a bare [except] clause. *)
Definition try_except {St A} (m : M St A) (h : exn -> M St A) : M St A :=
  fun s => match m s with
           | (Ok a, s') => (Ok a, s')
           | (Raise e, s') => h e s'
           end.
Definition get {St} : M St St := fun s => (Ok s, s).
Definition modify {St} (f : St -> St) : M St unit := fun s => (Ok tt, f s).
(** A value that is computed without touching the state but may raise. *)
Definition lift {St A} (r : result A) : M St A := fun s => (r, s).
(** A read of the state that may raise. *)
Definition observe {St A} (f : St -> result A) : M St A := fun s => (f s, s).

Declare Scope py_scope.
Delimit Scope py_scope with py.
Notation "x <- m ;; k" := (bind m (fun x => k))
  (at level 100, m at next level, right associativity) : py_scope.
Notation "m ;;; k" := (bind m (fun _ => k))
  (at level 100, right associativity) : py_scope.
Open Scope py_scope.

(** [for x in l: body x] *)
Fixpoint for_each {St A} (l : list A) (body : A -> M St unit) : M St unit :=
  match l with
  | [] => ret tt
  | x :: l' => body x ;;; for_each l' body
  end.

(** ** Python strings and paths *)

Definition py_str_int (z : Z) : string := NilZero.string_of_int (Z.to_int z).

(** [s.endswith(suffix)] *)
Definition endswith (s suffix : string) : bool :=
  let n := String.length s in
  let m := String.length suffix in
  (m <=? n)%nat && String.eqb (substring (n - m) m s) suffix.

(** [s.replace(old, new)] for a non-empty [old]: non-overlapping
    occurrences, leftmost first.  [skip] counts the characters of a
    matched occurrence that are still to be dropped. *)
Fixpoint replace_from (skip : nat) (old new s : string) : string :=
  match s with
  | EmptyString => EmptyString
  | String c s' =>
      match skip with
      | S k => replace_from k old new s'
      | O => if String.prefix old s
             then new +:+ replace_from (String.length old - 1) old new s'
             else String c (replace_from O old new s')
      end
  end.
Definition str_replace (s old new : string) : string := replace_from O old new s.

Definition newline : string := String (Ascii.ascii_of_nat 10) EmptyString.

(** [os.path.join(a, b)] on a POSIX system. *)
Definition path_join (a b : string) : string :=
  if String.prefix "/" b then b
  else if String.eqb a "" || endswith a "/" then a +:+ b
  else a +:+ "/" +:+ b.

(** Truth value of a [str] or of an optional [str]. *)
Definition truthy_str (s : string) : bool := negb (String.eqb s "").
Definition truthy_opt_str (o : option string) : bool :=
  match o with Some s => truthy_str s | None => false end.
Definition truthy_int (z : Z) : bool := negb (z =? 0).
Definition truthy_opt_int (o : option Z) : bool :=
  match o with Some z => truthy_int z | None => false end.

(** [enumerate(l)] and [range(n)] *)
Definition enumerate {A} (l : list A) : list (nat * A) :=
  combine (seq 0 (length l)) l.
Definition range (n : nat) : list nat := seq 0 n.

(** A [for] loop whose body updates a local object and may raise. *)
Fixpoint for_fold {A S} (l : list A) (body : A -> S -> result S) (s : S)
  : result S :=
  match l with
  | [] => Ok s
  | x :: l' => match body x s with
               | Ok s' => for_fold l' body s'
               | Raise e => Raise e
               end
  end.

(** ** Tables *)

Inductive cell : Type :=
  | CNull
  | CInt (z : Z)
  | CStr (s : string).

Global Instance cell_eq_dec : EqDecision cell.
Proof. solve_decision. Defined.

(** A [pandas.Series] is its values, a [pandas.DataFrame] its columns in
    physical order. *)
Definition Series : Type := list cell.
Definition DataFrame : Type := list Series.

(** [data.shape[1]] *)
Definition shape1 (data : DataFrame) : nat := length data.

(** [data.iloc[:, col_offset]]: out of range raises [IndexError]. *)
Definition iloc_col (data : DataFrame) (col_offset : nat) : result Series :=
  match data !! col_offset with
  | Some c => Ok c
  | None => Raise (IndexError "single positional indexer is out-of-bounds")
  end.

(** [bool(data)] where [data] is [None] or a [DataFrame].  pandas refuses
    to give a DataFrame a truth value: [DataFrame.__bool__] raises
    [ValueError] whatever the frame holds. *)
Definition truth_of_data (data : option DataFrame) : result bool :=
  match data with
  | None => Ok false
  | Some _ => Raise (ValueError "The truth value of a DataFrame is ambiguous")
  end.

(** [not data] *)
Definition not_data (data : option DataFrame) : result bool :=
  match truth_of_data data with
  | Ok b => Ok (negb b)
  | Raise e => Raise e
  end.

(** [col.unique().tolist()]: distinct values in order of first appearance. *)
Fixpoint unique (col : Series) : list cell :=
  match col with
  | [] => []
  | x :: col' => x :: filter (fun y => y ≠ x) (unique col')
  end.

(** ** Descriptions and metadata *)

Definition stats : Type := list (string * Z).

Record variable_description : Type := {
  vd_name : option string;
  vd_description : option string;
  vd_semantic_type : list string
}.

Record description : Type := {
  d_title : option string;
  d_description : option string;
  d_temporal_coverage : option (option string * option string);
  d_variables : option (list variable_description)
}.

(** [{}], the description handed to a column that has none. *)
Definition empty_variable_description : variable_description :=
  {| vd_name := None; vd_description := None; vd_semantic_type := [] |}.

Record VariableMetadata : Type := {
  v_datamart_id : Z;
  v_name : option string;
  v_description : option string;
  v_semantic_type : list string;
  v_stats : option stats
}.

Record GlobalMetadata : Type := {
  datamart_id : Z;
  g_title : option string;
  g_description : option string;
  g_temporal_coverage : option (option string * option string);
  variables : list VariableMetadata;
  g_stats : option stats
}.

(** Modelled from the spec: [GlobalMetadata.construct_global] of
    [datamart/metadata/global_metadata.py], which is not part of the
    sources at hand.  The dataset id is the one passed in, the dataset
    fields are copied from the description, the variable list starts
    empty. *)
Definition construct_global (d : description) (datamart_id : Z) : GlobalMetadata :=
  {| datamart_id := datamart_id;
     g_title := d_title d;
     g_description := d_description d;
     g_temporal_coverage := d_temporal_coverage d;
     variables := [];
     g_stats := None |}.

(** Modelled from the spec: [GlobalMetadata.add_variable_metadata], not
    part of the sources at hand.  Variables are kept in insertion order. *)
Definition add_variable_metadata (g : GlobalMetadata) (v : VariableMetadata)
  : GlobalMetadata :=
  {| datamart_id := datamart_id g;
     g_title := g_title g;
     g_description := g_description g;
     g_temporal_coverage := g_temporal_coverage g;
     variables := variables g ++ [v];
     g_stats := g_stats g |}.

(** Modelled from the spec: [VariableMetadata.construct_variable] of
    [datamart/metadata/variable_metadata.py], not part of the sources at
    hand. *)
Definition construct_variable (d : variable_description) (datamart_id : Z)
  : VariableMetadata :=
  {| v_datamart_id := datamart_id;
     v_name := vd_name d;
     v_description := vd_description d;
     v_semantic_type := vd_semantic_type d;
     v_stats := None |}.

(** What [Utils.validate_schema] is called on: a description read from a
    file, or the metadata built from it. *)
Inductive document : Type :=
  | DescriptionDoc (d : description)
  | MetadataDoc (m : GlobalMetadata).

(** ** Collaborators of the index builder *)

(** [datamart.es_managers.index_manager.IndexManager], over the state
    [ES] of the Elasticsearch cluster it talks to. *)
Record IndexManager (ES : Type) : Type := {
  check_exists : string -> ES -> result bool;
  create_index : string -> M ES unit;
  delete_index : list string -> M ES unit;
  (* index, doc_type, body, id *)
  create_doc : string -> string -> GlobalMetadata -> Z -> M ES unit;
  update_doc : string -> string -> GlobalMetadata -> Z -> M ES unit;
  current_global_datamart_id : string -> ES -> result Z
}.
Arguments check_exists {ES}.
Arguments create_index {ES}.
Arguments delete_index {ES}.
Arguments create_doc {ES}.
Arguments update_doc {ES}.
Arguments current_global_datamart_id {ES}.

(** The calls into [os], [json], [pandas] and [open] that reach the file
    system, over its state [FS]. *)
Record FileSystem (FS : Type) : Type := {
  (* json.load(open(path, 'r')) *)
  json_load : string -> FS -> result description;
  (* pd.read_csv(open(path), 'r') *)
  read_csv : string -> FS -> result DataFrame;
  (* os.listdir(path) *)
  listdir : string -> FS -> result (list string);
  (* open(path, mode=mode) *)
  open_file : string -> string -> M FS unit;
  (* out.write(text) on the file opened at path *)
  write_file : string -> string -> M FS unit
}.
Arguments json_load {FS}.
Arguments read_csv {FS}.
Arguments listdir {FS}.
Arguments open_file {FS}.
Arguments write_file {FS}.

(** [datamart.utilities.utils.Utils] and [json.dumps], as far as the index
    builder calls them.  [materialize] stands for
    [Utils.materialize(metadata=description).infer_objects()]. *)
Record UtilsT : Type := {
  validate_schema : document -> result unit;
  materialize : description -> result DataFrame;
  json_dumps : GlobalMetadata -> result string
}.

(** [datamart.profiler.Profiler().basic_profiler]: the statistics it
    computes for one column and for the whole table. *)
Record BasicProfiler : Type := {
  profile_column : Series -> variable_description -> result stats;
  profile_table : DataFrame -> result stats
}.

(** Modelled from the spec: [basic_profiling_column] of the profiler
    package, not part of the sources at hand.  It attaches the column's
    statistics to the variable metadata and leaves the rest as it is. *)
Definition basic_profiling_column (bp : BasicProfiler)
    (d : variable_description) (v : VariableMetadata) (column : Series)
  : result VariableMetadata :=
  match profile_column bp column d with
  | Ok st => Ok {| v_datamart_id := v_datamart_id v;
                   v_name := v_name v;
                   v_description := v_description v;
                   v_semantic_type := v_semantic_type v;
                   v_stats := Some st |}
  | Raise e => Raise e
  end.

(** Modelled from the spec: [basic_profiling_entire] of the profiler
    package, not part of the sources at hand.  It attaches the
    dataset-level statistics to the global metadata. *)
Definition basic_profiling_entire (bp : BasicProfiler)
    (g : GlobalMetadata) (data : DataFrame) : result GlobalMetadata :=
  match profile_table bp data with
  | Ok st => Ok {| datamart_id := datamart_id g;
                   g_title := g_title g;
                   g_description := g_description g;
                   g_temporal_coverage := g_temporal_coverage g;
                   variables := variables g;
                   g_stats := Some st |}
  | Raise e => Raise e
  end.

(** ** [datamart/index_builder.py] *)

Definition GLOBAL_INDEX_INTERVAL : Z := 10000.

(** An [IndexBuilder] instance, together with the world it acts on: the
    Elasticsearch cluster behind [self.im], the file system, and what has
    been printed or warned so far. *)
Record IndexBuilder (ES FS : Type) : Type := {
  current_global_index : option Z;
  self_GLOBAL_INDEX_INTERVAL : Z;
  es : ES;
  fs : FS;
  stdout : list output
}.
Arguments current_global_index {ES FS}.
Arguments self_GLOBAL_INDEX_INTERVAL {ES FS}.
Arguments es {ES FS}.
Arguments fs {ES FS}.
Arguments stdout {ES FS}.

Section IndexBuilder.
Context {ES FS : Type}.
Variable im : IndexManager ES.
Variable os : FileSystem FS.
Variable Utils : UtilsT.
Variable basic_profiler : BasicProfiler.

Abbreviation Self := (IndexBuilder ES FS).

(** [IndexBuilder.__init__] *)
Definition init (e : ES) (f : FS) : Self :=
  {| current_global_index := None;
     self_GLOBAL_INDEX_INTERVAL := GLOBAL_INDEX_INTERVAL;
     es := e; fs := f; stdout := [] |}.

Definition set_current_global_index (c : option Z) (self : Self) : Self :=
  {| current_global_index := c;
     self_GLOBAL_INDEX_INTERVAL := self_GLOBAL_INDEX_INTERVAL self;
     es := es self; fs := fs self; stdout := stdout self |}.
Definition set_es (e : ES) (self : Self) : Self :=
  {| current_global_index := current_global_index self;
     self_GLOBAL_INDEX_INTERVAL := self_GLOBAL_INDEX_INTERVAL self;
     es := e; fs := fs self; stdout := stdout self |}.
Definition set_fs (f : FS) (self : Self) : Self :=
  {| current_global_index := current_global_index self;
     self_GLOBAL_INDEX_INTERVAL := self_GLOBAL_INDEX_INTERVAL self;
     es := es self; fs := f; stdout := stdout self |}.
Definition emit (o : output) (self : Self) : Self :=
  {| current_global_index := current_global_index self;
     self_GLOBAL_INDEX_INTERVAL := self_GLOBAL_INDEX_INTERVAL self;
     es := es self; fs := fs self; stdout := stdout self ++ [o] |}.

(** Running an operation of the cluster, or of the file system, from
    the builder. *)
Definition on_es {A} (m : M ES A) : M Self A :=
  fun self => let (r, e) := m (es self) in (r, set_es e self).
Definition on_fs {A} (m : M FS A) : M Self A :=
  fun self => let (r, f) := m (fs self) in (r, set_fs f self).
Definition ask_es {A} (f : ES -> result A) : M Self A :=
  observe (fun self => f (es self)).
Definition ask_fs {A} (f : FS -> result A) : M Self A :=
  observe (fun self => f (fs self)).

Definition print (s : string) : M Self unit := modify (emit (Print s)).
Definition warn (s : string) : M Self unit := modify (emit (Warn s)).
Definition print_exc (e : exn) : M Self unit := modify (emit (PrintExc e)).

Definition _check_es_index (es_index : string) (delete_old_es_index : bool)
  : M Self unit :=
  exists_ <- ask_es (check_exists im es_index) ;;
  if negb exists_ then
    on_es (create_index im es_index)
  else if delete_old_es_index then
    on_es (delete_index im [es_index]) ;;;
    on_es (create_index im es_index)
  else ret tt.

Definition _read_data (description_path : string) (data_path : option string)
  : M Self (description * option DataFrame) :=
  description <- ask_fs (json_load os description_path) ;;
  lift (validate_schema Utils (DescriptionDoc description)) ;;;
  match data_path with
  | Some p =>
      if truthy_str p then
        data <- ask_fs (read_csv os p) ;;
        ret (description, Some data)
      else ret (description, None)
  | None => ret (description, None)
  end.

Definition _save_data (save_to_file save_mode : string)
    (metadata : GlobalMetadata) : M Self unit :=
  on_fs (open_file os save_to_file save_mode) ;;;
  on_fs (write_file os save_to_file (py_str_int (datamart_id metadata))) ;;;
  on_fs (write_file os save_to_file newline) ;;;
  text <- lift (json_dumps Utils metadata) ;;
  on_fs (write_file os save_to_file text) ;;;
  on_fs (write_file os save_to_file newline).

Definition construct_variable_metadata (d : variable_description)
    (global_datamart_id : Z) (col_offset : nat) (data : option DataFrame)
  : result VariableMetadata :=
  let variable_metadata :=
    construct_variable d (Z.of_nat col_offset + global_datamart_id + 1) in
  match data with
  | Some df =>
      match iloc_col df col_offset with
      | Ok column =>
          basic_profiling_column basic_profiler d variable_metadata column
      | Raise e => Raise e
      end
  | None => Ok variable_metadata
  end.

(** [self.current_global_index += self.GLOBAL_INDEX_INTERVAL], then read
    it back: adding to [None] raises [TypeError]. *)
Definition advance_global_index : M Self Z :=
  self <- get ;;
  match current_global_index self with
  | Some c =>
      modify (set_current_global_index
                (Some (c + self_GLOBAL_INDEX_INTERVAL self))) ;;;
      ret (c + self_GLOBAL_INDEX_INTERVAL self)
  | None =>
      raise (TypeError "unsupported operand type(s) for +=: 'NoneType' and 'int'")
  end.

(** The body of the loop over the columns. *)
Definition add_column (datamart_id : Z) (data : option DataFrame)
    (col : nat * variable_description) (global_metadata : GlobalMetadata)
  : result GlobalMetadata :=
  match construct_variable_metadata (snd col) datamart_id (fst col) data with
  | Ok variable_metadata =>
      Ok (add_variable_metadata global_metadata variable_metadata)
  | Raise e => Raise e
  end.

Definition construct_global_metadata (d : description)
    (data : option DataFrame) (overwrite_datamart_id : option Z)
  : M Self GlobalMetadata :=
  datamart_id <-
    (if negb (truthy_opt_int overwrite_datamart_id) then
       advance_global_index
     else ret (default 0 overwrite_datamart_id)) ;;
  let global_metadata := construct_global d datamart_id in
  global_metadata <-
    match d_variables d, data with
    | Some (v :: vs), _ =>
        lift (for_fold (enumerate (v :: vs))
                (add_column datamart_id data) global_metadata)
    | _, Some df =>
        lift (for_fold (map (fun col_offset =>
                               (col_offset, empty_variable_description))
                            (range (shape1 df)))
                (add_column datamart_id data) global_metadata)
    | _, None =>
        warn "No data to profile for variable metadata. No variable description. Leave empty for variable metadata" ;;;
        ret global_metadata
    end ;;
  match data with
  | Some df =>
      lift (basic_profiling_entire basic_profiler global_metadata df)
  | None => ret global_metadata
  end.

(** [profile] hands the metadata back as it got it. *)
Definition profile (data : DataFrame) (metadata : GlobalMetadata)
  : GlobalMetadata := metadata.

(** The [try]/[except] around materialization, shared by [indexing] and
    [updating]. *)
Definition materialize_if_asked (d : description) (data : option DataFrame)
    (query_data : bool) : M Self (option DataFrame) :=
  no_data <- lift (not_data data) ;;
  if no_data && query_data then
    try_except
      (fetched <- lift (materialize Utils d) ;; ret (Some fetched))
      (fun e =>
         print_exc e ;;;
         warn "Materialization Failed, index based on schema json only" ;;;
         ret data)
  else ret data.

Definition indexing (description_path es_index : string)
    (data_path : option string) (query_data_for_indexing : bool)
    (save_to_file : option string) (save_to_file_mode : string)
    (delete_old_es_index : bool) : M Self GlobalMetadata :=
  print ("==== Creating metadata and indexing for " +:+ description_path) ;;;
  _check_es_index es_index delete_old_es_index ;;;
  self <- get ;;
  (if negb (truthy_opt_int (current_global_index self)) || delete_old_es_index
   then
     current <- ask_es (current_global_datamart_id im es_index) ;;
     modify (set_current_global_index (Some current))
   else ret tt) ;;;
  read <- _read_data description_path data_path ;;
  let description := fst read in
  data <- materialize_if_asked description (snd read) query_data_for_indexing ;;
  metadata <- construct_global_metadata description data None ;;
  let metadata :=
    match data with
    | Some df => profile df metadata
    | None => metadata
    end in
  lift (validate_schema Utils (MetadataDoc metadata)) ;;;
  (match save_to_file with
   | Some path =>
       if truthy_str path then _save_data path save_to_file_mode metadata
       else ret tt
   | None => ret tt
   end) ;;;
  on_es (create_doc im es_index "_doc" metadata (datamart_id metadata)) ;;;
  ret metadata.

Definition updating (description_path es_index : string) (document_id : Z)
    (data_path : option string) (query_data_for_updating : bool)
  : M Self GlobalMetadata :=
  _check_es_index es_index false ;;;
  read <- _read_data description_path data_path ;;
  let description := fst read in
  data <- materialize_if_asked description (snd read) query_data_for_updating ;;
  metadata <- construct_global_metadata description data (Some document_id) ;;
  lift (validate_schema Utils (MetadataDoc metadata)) ;;;
  on_es (update_doc im es_index "document" metadata (datamart_id metadata)) ;;;
  ret metadata.

(** The body of the loop of [bulk_indexing]. *)
Definition bulk_indexing_step (description_dir es_index : string)
    (data_dir : option string) (query_data_for_indexing : bool)
    (save_to_file : option string) (save_to_file_mode : string)
    (description : string) : M Self unit :=
  if endswith description ".json" then
    let description_path := path_join description_dir description in
    let data_path :=
      match data_dir with
      | Some dir =>
          if truthy_str dir then
            Some (path_join dir
                    (str_replace description "_description.json" ".csv"))
          else None
      | None => None
      end in
    indexing description_path es_index data_path query_data_for_indexing
      save_to_file save_to_file_mode false ;;;
    ret tt
  else ret tt.

Definition bulk_indexing (description_dir es_index : string)
    (data_dir : option string) (query_data_for_indexing : bool)
    (save_to_file : option string) (save_to_file_mode : string)
    (delete_old_es_index : bool) : M Self unit :=
  _check_es_index es_index delete_old_es_index ;;;
  names <- ask_fs (listdir os description_dir) ;;
  for_each names
    (bulk_indexing_step description_dir es_index data_dir
       query_data_for_indexing save_to_file save_to_file_mode).

End IndexBuilder.

(** ** [datamart/augment.py] *)

(** Extra keyword arguments handed on to [QueryManager.search]. *)
Definition kwargs : Type := list (string * string).

(** [datamart.es_managers.query_manager.QueryManager]: the clause
    builders, over the type [Q] of query bodies, and the search itself. *)
Record QueryManager (Q float : Type) : Type := {
  match_any : string -> Q;
  match_temporal_coverage : option string -> option string -> Q;
  match_global_datamart_id : Z -> Q;
  match_variable_datamart_id : Z -> Q;
  match_key_value_pairs : list (string * string) -> Q;
  match_some_terms_from_variables_array : list cell -> option float -> Q;
  match_all : Q;
  form_conjunction_query : list Q -> Q;
  search : Q -> kwargs -> result (option (list GlobalMetadata))
}.
Arguments match_any {Q float}.
Arguments match_temporal_coverage {Q float}.
Arguments match_global_datamart_id {Q float}.
Arguments match_variable_datamart_id {Q float}.
Arguments match_key_value_pairs {Q float}.
Arguments match_some_terms_from_variables_array {Q float}.
Arguments match_all {Q float}.
Arguments form_conjunction_query {Q float}.
Arguments search {Q float}.

(** A joiner object: its [join] method. *)
Record Joiner : Type := {
  joiner_join :
    DataFrame -> DataFrame -> list (list Z) -> list (list Z) ->
    GlobalMetadata -> GlobalMetadata -> result (option DataFrame)
}.

(** [JoinerPrepare.prepare_joiner] and the two [Utils] functions that
    [join] calls. *)
Record JoinSupport : Type := {
  prepare_joiner : string -> result (option Joiner);
  generate_metadata_from_dataframe : DataFrame -> result GlobalMetadata;
  calculate_dsbox_features :
    DataFrame -> option GlobalMetadata -> result GlobalMetadata
}.

(** An [Augment] instance: the joiner cache [self.joiners], and the
    warnings issued so far.  A cached value is a joiner object, which
    counts as true, or [None].  Metadata handed to [join] is a metadata
    dictionary, never empty, or [None]. *)
Record Augment : Type := {
  joiners : gmap string (option Joiner);
  warnings : list output
}.

Section Augment.
Context {Q float : Type}.
Variable qm : QueryManager Q float.
Variable support : JoinSupport.

(** [Augment.__init__] *)
Definition Augment_init : Augment := {| joiners := ∅; warnings := [] |}.

Definition set_joiner (name : string) (j : option Joiner) (self : Augment)
  : Augment :=
  {| joiners := <[name := j]> (joiners self); warnings := warnings self |}.
Definition warn_augment (s : string) : M Augment unit :=
  modify (fun self =>
    {| joiners := joiners self; warnings := warnings self ++ [Warn s] |}).

Definition _query_all (kw : kwargs) : result (option (list GlobalMetadata)) :=
  search qm (match_all qm) kw.

Definition _query_by_es_query (body : Q) (kw : kwargs)
  : result (option (list GlobalMetadata)) :=
  search qm body kw.

Definition query (col : option Series)
    (minimum_should_match_ratio_for_col : option float)
    (query_string temporal_coverage_start temporal_coverage_end : option string)
    (global_datamart_id variable_datamart_id : option Z)
    (key_value_pairs : option (list (string * string)))
    (kw : kwargs) : result (option (list GlobalMetadata)) :=
  let queries : list Q := [] in
  let queries :=
    match query_string with
    | Some s => if truthy_str s then queries ++ [match_any qm s] else queries
    | None => queries
    end in
  let queries :=
    if truthy_opt_str temporal_coverage_start
       || truthy_opt_str temporal_coverage_end
    then queries ++ [match_temporal_coverage qm temporal_coverage_start
                       temporal_coverage_end]
    else queries in
  let queries :=
    match global_datamart_id with
    | Some id => if truthy_int id
                 then queries ++ [match_global_datamart_id qm id]
                 else queries
    | None => queries
    end in
  let queries :=
    match variable_datamart_id with
    | Some id => if truthy_int id
                 then queries ++ [match_variable_datamart_id qm id]
                 else queries
    | None => queries
    end in
  let queries :=
    match key_value_pairs with
    | Some (p :: ps) => queries ++ [match_key_value_pairs qm (p :: ps)]
    | _ => queries
    end in
  let queries :=
    match col with
    | Some c =>
        queries ++ [match_some_terms_from_variables_array qm (unique c)
                      minimum_should_match_ratio_for_col]
    | None => queries
    end in
  match queries with
  | [] => _query_all []
  | _ :: _ => search qm (form_conjunction_query qm queries) kw
  end.

Definition join (left_df right_df : DataFrame)
    (left_columns right_columns : list (list Z))
    (left_metadata right_metadata : option GlobalMetadata)
    (joiner : string) : M Augment (option DataFrame) :=
  self <- get ;;
  (match joiners self !! joiner with
   | None =>
       prepared <- lift (prepare_joiner support joiner) ;;
       modify (set_joiner joiner prepared)
   | Some _ => ret tt
   end) ;;;
  self <- get ;;
  match joiners self !! joiner with
  | None => raise (KeyError joiner)
  | Some None =>
      warn_augment "No suitable joiner, return original dataframe" ;;;
      ret (Some left_df)
  | Some (Some the_joiner) =>
      left_metadata <-
        match left_metadata with
        | Some m => ret m
        | None => lift (generate_metadata_from_dataframe support left_df)
        end ;;
      left_metadata <-
        lift (calculate_dsbox_features support left_df (Some left_metadata)) ;;
      right_metadata <-
        lift (calculate_dsbox_features support right_df right_metadata) ;;
      lift (joiner_join the_joiner left_df right_df left_columns right_columns
              left_metadata right_metadata)
  end.

End Augment.

(** ** Vocabulary of the properties *)

(** [preserves f m]: running [m] does not change the part [f] of the
    state, whether [m] returns or raises. *)
Definition preserves {St X A} (f : St -> X) (m : M St A) : Prop :=
  forall s, f (snd (m s)) = f s.

(** The columns a dataset is given: those of the description when it
    lists any, else those of the data, else none. *)
Definition column_count (d : description) (data : option DataFrame) : nat :=
  match d_variables d, data with
  | Some (v :: vs), _ => length (v :: vs)
  | _, Some df => shape1 df
  | _, None => 0
  end.

(** Two builders that differ at most in what has been printed. *)
Definition same_builder {ES FS} (s s' : IndexBuilder ES FS) : Prop :=
  current_global_index s = current_global_index s' /\
  self_GLOBAL_INDEX_INTERVAL s = self_GLOBAL_INDEX_INTERVAL s' /\
  es s = es s' /\ fs s = fs s'.

(** What a view [f] of the builder may be blind to: the cluster, the file
    system, the output, the counter. *)
Definition blind_to_es {ES FS X} (f : IndexBuilder ES FS -> X) : Prop :=
  forall e s, f (set_es e s) = f s.
Definition blind_to_fs {ES FS X} (f : IndexBuilder ES FS -> X) : Prop :=
  forall x s, f (set_fs x s) = f s.
Definition blind_to_stdout {ES FS X} (f : IndexBuilder ES FS -> X) : Prop :=
  forall o s, f (emit o s) = f s.
Definition blind_to_counter {ES FS X} (f : IndexBuilder ES FS -> X) : Prop :=
  forall c s, f (set_current_global_index c s) = f s.

(** The joiner cache holds what [prepare_joiner] answered, as it does
    when only [join] fills it. *)
Definition joiners_prepared (support : JoinSupport) (self : Augment) : Prop :=
  forall name j,
    joiners self !! name = Some j -> prepare_joiner support name = Ok j.

(** The phases of [indexing] and [updating], named so that a property can
    say how far a call got.  [indexing_phases] and [updating_phases] below
    show that the methods are these phases in sequence. *)
Section Phases.
Context {ES FS : Type}.
Variable im : IndexManager ES.
Variable os : FileSystem FS.
Variable Utils : UtilsT.
Variable basic_profiler : BasicProfiler.

(** Lines 60-67 of [indexing]: everything up to and including
    [_read_data]. *)
Definition indexing_read (description_path es_index : string)
    (data_path : option string) (delete_old_es_index : bool)
  : M (IndexBuilder ES FS) (description * option DataFrame) :=
  print ("==== Creating metadata and indexing for " +:+ description_path) ;;;
  _check_es_index im es_index delete_old_es_index ;;;
  self <- get ;;
  (if negb (truthy_opt_int (current_global_index self)) || delete_old_es_index
   then
     current <- ask_es (current_global_datamart_id im es_index) ;;
     modify (set_current_global_index (Some current))
   else ret tt) ;;;
  _read_data os Utils description_path data_path.

(** Lines 77-78: the metadata after the (idle) [profile] step. *)
Definition profiled (data : option DataFrame) (metadata : GlobalMetadata)
  : GlobalMetadata :=
  match data with
  | Some df => profile df metadata
  | None => metadata
  end.

(** Lines 80-87: validation, the mirror file, the store. *)
Definition indexing_persist (es_index : string)
    (save_to_file : option string) (save_to_file_mode : string)
    (metadata : GlobalMetadata) : M (IndexBuilder ES FS) GlobalMetadata :=
  lift (validate_schema Utils (MetadataDoc metadata)) ;;;
  (match save_to_file with
   | Some path =>
       if truthy_str path
       then _save_data os Utils path save_to_file_mode metadata
       else ret tt
   | None => ret tt
   end) ;;;
  on_es (create_doc im es_index "_doc" metadata (datamart_id metadata)) ;;;
  ret metadata.

(** Lines 75-87: from the description and the data to the stored
    metadata. *)
Definition indexing_from (d : description) (data : option DataFrame)
    (es_index : string) (save_to_file : option string)
    (save_to_file_mode : string) : M (IndexBuilder ES FS) GlobalMetadata :=
  metadata <- construct_global_metadata basic_profiler d data None ;;
  indexing_persist es_index save_to_file save_to_file_mode
    (profiled data metadata).

(** Lines 60-78: everything before validation. *)
Definition indexing_build (description_path es_index : string)
    (data_path : option string) (query_data_for_indexing : bool)
    (delete_old_es_index : bool) : M (IndexBuilder ES FS) GlobalMetadata :=
  read <- indexing_read description_path es_index data_path
            delete_old_es_index ;;
  data <- materialize_if_asked Utils (fst read) (snd read)
            query_data_for_indexing ;;
  metadata <- construct_global_metadata basic_profiler (fst read) data None ;;
  ret (profiled data metadata).

(** Lines 119-121 of [updating]. *)
Definition updating_read (description_path es_index : string)
    (data_path : option string)
  : M (IndexBuilder ES FS) (description * option DataFrame) :=
  _check_es_index im es_index false ;;;
  _read_data os Utils description_path data_path.

(** Lines 129-135 of [updating]. *)
Definition updating_from (d : description) (data : option DataFrame)
    (es_index : string) (document_id : Z)
  : M (IndexBuilder ES FS) GlobalMetadata :=
  metadata <- construct_global_metadata basic_profiler d data
                (Some document_id) ;;
  lift (validate_schema Utils (MetadataDoc metadata)) ;;;
  on_es (update_doc im es_index "document" metadata (datamart_id metadata)) ;;;
  ret metadata.

(** The batch as the specification words it: each record on its own, a
    failing record skipped and the loop going on. *)
Definition bulk_indexing_independent (description_dir es_index : string)
    (data_dir : option string) (query_data_for_indexing : bool)
    (save_to_file : option string) (save_to_file_mode : string)
    (delete_old_es_index : bool) : M (IndexBuilder ES FS) unit :=
  _check_es_index im es_index delete_old_es_index ;;;
  names <- ask_fs (listdir os description_dir) ;;
  for_each names
    (fun description =>
       try_except
         (bulk_indexing_step im os Utils basic_profiler description_dir
            es_index data_dir query_data_for_indexing save_to_file
            save_to_file_mode description)
         (fun _ => ret tt)).

End Phases.

(** ** A small in-memory world

    An Elasticsearch cluster that is a map from index names to documents
    by id, a file system that is a map from paths to what they hold, a
    validator that wants a title, a materializer that always fails.  The
    functions above are run on it at concrete inputs. *)

Module Sample.

Definition ES : Type := gmap string (gmap Z GlobalMetadata).

Definition docs_of (index : string) (e : ES) : gmap Z GlobalMetadata :=
  default ∅ (e !! index).

Definition max_id (docs : gmap Z GlobalMetadata) : Z :=
  map_fold (fun id _ acc => Z.max id acc) 0 docs.

Definition im : IndexManager ES := {|
  check_exists := fun index e => Ok (bool_decide (is_Some (e !! index)));
  create_index := fun index => modify (fun e => <[index := ∅]> e);
  delete_index := fun indices =>
    modify (fun e => foldr (fun index acc => delete index acc) e indices);
  create_doc := fun index _ body id =>
    modify (fun e => <[index := <[id := body]> (docs_of index e)]> e);
  update_doc := fun index _ body id e =>
    match docs_of index e !! id with
    | Some _ => (Ok tt, <[index := <[id := body]> (docs_of index e)]> e)
    | None => (Raise (RuntimeError "document missing"), e)
    end;
  current_global_datamart_id := fun index e =>
    Ok (max_id (docs_of index e) / GLOBAL_INDEX_INTERVAL
        * GLOBAL_INDEX_INTERVAL)
|}.

Inductive file : Type :=
  | JsonFile (d : description)
  | CsvFile (data : DataFrame)
  | TextFile (text : string)
  | Directory (names : list string).

Definition FS : Type := gmap string file.

Definition no_such_file {A} (path : string) : result A :=
  Raise (OSError ("No such file or directory: " +:+ path)).

Definition os : FileSystem FS := {|
  json_load := fun path f =>
    match f !! path with
    | Some (JsonFile d) => Ok d
    | Some _ => Raise (ValueError "Expecting value")
    | None => no_such_file path
    end;
  read_csv := fun path f =>
    match f !! path with
    | Some (CsvFile data) => Ok data
    | Some _ => Raise (ValueError "Error tokenizing data")
    | None => no_such_file path
    end;
  listdir := fun path f =>
    match f !! path with
    | Some (Directory names) => Ok names
    | Some _ => Raise (OSError ("Not a directory: " +:+ path))
    | None => no_such_file path
    end;
  open_file := fun path mode f =>
    match f !! path with
    | Some (TextFile _) => (Ok tt, f)
    | Some _ => (Raise (OSError ("Is a directory: " +:+ path)), f)
    | None => (Ok tt, <[path := TextFile ""]> f)
    end;
  write_file := fun path text f =>
    match f !! path with
    | Some (TextFile old) => (Ok tt, <[path := TextFile (old +:+ text)]> f)
    | _ => (Raise (ValueError "I/O operation on closed file"), f)
    end
|}.

Definition Utils : UtilsT := {|
  validate_schema := fun doc =>
    match doc with
    | DescriptionDoc d =>
        match d_title d with
        | Some _ => Ok tt
        | None => Raise (ValidationError "'title' is a required property")
        end
    | MetadataDoc m =>
        match g_title m with
        | Some t =>
            if String.eqb t "forbidden"
            then Raise (ValidationError "title is not allowed")
            else Ok tt
        | None => Raise (ValidationError "'title' is a required property")
        end
    end;
  materialize := fun _ => Raise (ConnectionError "materializer unreachable");
  json_dumps := fun m =>
    Ok ("{datamart_id: " +:+ py_str_int (datamart_id m) +:+ "}")
|}.

Definition basic_profiler : BasicProfiler := {|
  profile_column := fun column _ =>
    Ok [("num_distinct_values", Z.of_nat (length (unique column)))];
  profile_table := fun data =>
    Ok [("num_columns", Z.of_nat (shape1 data))]
|}.

Definition city : variable_description :=
  {| vd_name := Some "city"; vd_description := None;
     vd_semantic_type := [] |}.

Definition cities : description :=
  {| d_title := Some "cities"; d_description := None;
     d_temporal_coverage := None; d_variables := Some [city] |}.

Definition untitled : description :=
  {| d_title := None; d_description := None;
     d_temporal_coverage := None; d_variables := None |}.

Definition forbidden : description :=
  {| d_title := Some "forbidden"; d_description := None;
     d_temporal_coverage := None; d_variables := None |}.

Definition city_data : DataFrame := [[CStr "NY"; CStr "LA"; CStr "NY"]].

Definition towns : description :=
  {| d_title := Some "towns"; d_description := None;
     d_temporal_coverage := None; d_variables := None |}.

(** The directory descs lists a good description, one without a title,
    and another good one, in this order. *)
Definition files : FS :=
  <["descs" := Directory ["b_description.json"; "a_description.json";
                          "d_description.json"] ]>
  (<["descs/a_description.json" := JsonFile untitled]>
   (<["descs/b_description.json" := JsonFile cities]>
    (<["descs/d_description.json" := JsonFile towns]>
     (<["other/c_description.json" := JsonFile forbidden]>
      (<["data/b.csv" := CsvFile city_data]> ∅))))).

(** The metadata of [cities] built from the description alone, under
    the dataset id [D]. *)
Definition cities_metadata (D : Z) : GlobalMetadata :=
  {| datamart_id := D; g_title := Some "cities";
     g_description := None; g_temporal_coverage := None;
     variables :=
       [{| v_datamart_id := D + 1; v_name := Some "city";
           v_description := None; v_semantic_type := [];
           v_stats := None |}];
     g_stats := None |}.

(** The same, built with [city_data] at hand. *)
Definition cities_profiled (D : Z) : GlobalMetadata :=
  {| datamart_id := D; g_title := Some "cities";
     g_description := None; g_temporal_coverage := None;
     variables :=
       [{| v_datamart_id := D + 1; v_name := Some "city";
           v_description := None; v_semantic_type := [];
           v_stats := Some [("num_distinct_values", 2)] |}];
     g_stats := Some [("num_columns", 1)] |}.

Definition towns_metadata (D : Z) : GlobalMetadata :=
  {| datamart_id := D; g_title := Some "towns";
     g_description := None; g_temporal_coverage := None;
     variables := []; g_stats := None |}.

(** A joiner whose [join] raises, registered under the name default;
    no other name has a joiner. *)
Definition broken_joiner : Joiner :=
  {| joiner_join := fun _ _ _ _ _ _ => Raise (RuntimeError "join failed") |}.

Definition support : JoinSupport := {|
  prepare_joiner := fun name =>
    if String.eqb name "default" then Ok (Some broken_joiner) else Ok None;
  generate_metadata_from_dataframe := fun _ => Ok (construct_global untitled 0);
  calculate_dsbox_features := fun _ m =>
    Ok (default (construct_global untitled 0) m)
|}.

(** What the validator says of a document without a title. *)
Definition missing_title : exn :=
  ValidationError "'title' is a required property".

(** A freshly constructed builder in front of an empty cluster. *)
Definition fresh : IndexBuilder ES FS := init ∅ files.

(** The same builder once its counter has been synchronized. *)
Definition synced : IndexBuilder ES FS :=
  set_current_global_index (Some 0) fresh.

End Sample.

(** ** [datamart_web/src/search_metadata.py] *)

(** What [default_search_by_csv] can end in, beyond the exceptions above:
    looking up a name that the object does not have. *)
Inductive web_exn : Type :=
  | AttributeError (attribute : string)
  | PyError (e : exn).

Inductive web_result (A : Type) : Type :=
  | Done (a : A)
  | Fail (e : web_exn).
Arguments Done {A} a.
Arguments Fail {A} e.

Definition web_bind {A B} (r : web_result A) (k : A -> web_result B)
  : web_result B :=
  match r with
  | Done a => k a
  | Fail e => Fail e
  end.

Definition of_result {A} (r : result A) : web_result A :=
  match r with
  | Ok a => Done a
  | Raise e => Fail (PyError e)
  end.

(** The Flask request, as far as it is read: the query arguments and the
    uploaded files. *)
Record Request (Upload : Type) : Type := {
  args : gmap string string;
  files : gmap string Upload
}.
Arguments args {Upload}.
Arguments files {Upload}.

(** [int(text)], [pd.read_csv(upload).infer_objects()] and
    [pandas.api.types.is_object_dtype]. *)
Record WebLibrary (Upload : Type) : Type := {
  py_int : string -> result Z;
  read_upload : Upload -> result DataFrame;
  is_object_dtype : Series -> bool
}.
Arguments py_int {Upload}.
Arguments read_upload {Upload}.
Arguments is_object_dtype {Upload}.

(** The three methods that [default_search_by_csv] calls on its
    [Augment]. *)
Record AugmentMethods : Type := {
  query_any_field_with_string :
    string -> web_result (option (list GlobalMetadata));
  query_by_column :
    Series -> option Z -> web_result (option (list GlobalMetadata));
  get_metadata_intersection :
    list GlobalMetadata -> list GlobalMetadata ->
    web_result (list GlobalMetadata)
}.


(** One entry of [ret["result"]]. *)
Record column_match : Type := {
  column_idx : nat;
  datasets_metadata : list GlobalMetadata
}.

(** What [default_search_by_csv] returns: the text of
    [json.dumps({"message": ...})], or the dictionary [ret]. *)
Inductive search_response : Type :=
  | MessageJson (message : string)
  | Ret (message : string) (result : list column_match).

(** [df.empty]: no columns, or no rows. *)
Definition df_empty (df : DataFrame) : bool :=
  match df with
  | [] => true
  | column :: _ => (length column =? 0)%nat
  end.

(** Truth value of a list of hits that may be [None]. *)
Definition truthy_hits (o : option (list GlobalMetadata)) : bool :=
  match o with
  | Some (_ :: _) => true
  | _ => false
  end.

Section SearchMetadata.
Context {Upload : Type}.
Variable lib : WebLibrary Upload.
Variable augument : AugmentMethods.

(** The body of the loop over the columns; [result] is [ret["result"]]. *)
Definition search_column (df : DataFrame)
    (minimum_should_match_for_column : option Z)
    (query_string_result : option (list GlobalMetadata))
    (idx : nat) (result : list column_match)
  : web_result (list column_match) :=
  web_bind (of_result (iloc_col df idx)) (fun column =>
  if is_object_dtype lib column then
    web_bind (query_by_column augument column
                minimum_should_match_for_column)
      (fun this_column_result =>
         if truthy_hits this_column_result then
           if negb (truthy_hits query_string_result) then
             Done (result
                   ++ [{| column_idx := idx;
                          datasets_metadata :=
                            take 10 (default [] this_column_result) |}])
           else
             web_bind (get_metadata_intersection augument
                         (default [] query_string_result)
                         (default [] this_column_result))
               (fun intersection =>
                  Done (result
                        ++ [{| column_idx := idx;
                               datasets_metadata := intersection |}]))
         else Done result)
  else Done result).

(** [for idx in range(df.shape[1]): ...] *)
Fixpoint search_columns (df : DataFrame)
    (minimum_should_match_for_column : option Z)
    (query_string_result : option (list GlobalMetadata))
    (idxs : list nat) (result : list column_match)
  : web_result (list column_match) :=
  match idxs with
  | [] => Done result
  | idx :: idxs' =>
      web_bind (search_column df minimum_should_match_for_column
                  query_string_result idx result)
        (search_columns df minimum_should_match_for_column
           query_string_result idxs')
  end.

Definition default_search_by_csv (request : Request Upload)
  : web_result search_response :=
  let query_string := args request !! "query_string" in
  web_bind
    (match args request !! "minimum_should_match_for_column" with
     | Some text =>
         web_bind (of_result (py_int lib text)) (fun n => Done (Some n))
     | None => Done None
     end)
    (fun minimum_should_match_for_column =>
  web_bind
    (match files request !! "file" with
     | Some upload => of_result (read_upload lib upload)
     | None => Fail (PyError (KeyError "file"))
     end)
    (fun df =>
  if df_empty df then
    Done (MessageJson "Failed to create Dataframe from csv, nothing found")
  else
    web_bind
      (match query_string with
       | Some s =>
           if truthy_str s then query_any_field_with_string augument s
           else Done None
       | None => Done None
       end)
      (fun query_string_result =>
    web_bind
      (search_columns df minimum_should_match_for_column query_string_result
         (range (shape1 df)) [])
      (fun result =>
    Done (Ret "Created Dataframe and finding datasets for augmenting"
            result))))).

End SearchMetadata.

(** ** [datamart/materializers/wikitables_downloader/utils.py] *)

(** [n] written with [%02d]. *)
Definition pad2 (n : Z) : string :=
  if (0 <=? n) && (n <? 10) then "0" +:+ py_str_int n else py_str_int n.

(** [str(timedelta(seconds=n))] for an integer [n]: the constructor
    carries whole days out of the seconds and refuses more than
    999999999 of them ([None] stands for its [OverflowError]); the text
    is hours, minutes and seconds, after the days if there are any. *)
Definition str_timedelta (n : Z) : option string :=
  let days := n / 86400 in
  let seconds := n mod 86400 in
  if (days <? -999999999) || (999999999 <? days) then None
  else
    let mm := seconds / 60 in
    let ss := seconds mod 60 in
    let hh := mm / 60 in
    let mm := mm mod 60 in
    let s := py_str_int hh +:+ ":" +:+ pad2 mm +:+ ":" +:+ pad2 ss in
    Some (if days =? 0 then s
          else py_str_int days +:+ " day"
               +:+ (if Z.abs days =? 1 then "" else "s") +:+ ", " +:+ s).

(** [n] copies of the character 0. *)
Fixpoint zeros (n : nat) : string :=
  match n with
  | O => ""
  | S n' => "0" +:+ zeros n'
  end.

(** [s.zfill(width)]: zeros on the left, after a leading sign. *)
Definition zfill (width : nat) (s : string) : string :=
  let fill := zeros (width - String.length s) in
  match s with
  | String c rest =>
      if Ascii.eqb c "-"%char || Ascii.eqb c "+"%char
      then String c (fill +:+ rest)
      else fill +:+ s
  | EmptyString => fill
  end.

(** [seconds_to_human], on a whole number of seconds. *)
Definition seconds_to_human (seconds : Z) : option string :=
  match str_timedelta seconds with
  | Some s => Some (zfill 8 s)
  | None => None
  end.

(** A value of a mixed feature vector: text, or a number of the numeric
    type [num]. *)
Inductive feature (num : Type) : Type :=
  | Cat (s : string)
  | Num (x : num).
Arguments Cat {num} s.
Arguments Num {num} x.

Section Vectors.
Context {num : Type}.
(** The integers 0 and 1 as numbers, and [abs(a - b)]. *)
Variable num_of_int : Z -> num.
Variable abs_diff : num -> num -> num.

(** [v1[feat] == v2[feat]] where [v1[feat]] is the text [a]. *)
Definition cat_eqb (a : string) (y : feature num) : bool :=
  match y with
  | Cat b => String.eqb a b
  | Num _ => false
  end.

(** One round of the loop of [vectors_difference]. *)
Definition difference_step (v2 : gmap string (feature num)) (prefix : string)
    (item : string * feature num) (res : gmap string (feature num))
  : result (gmap string (feature num)) :=
  let feat := fst item in
  match snd item with
  | Cat a =>
      match v2 !! feat with
      | Some y =>
          Ok (<[prefix +:+ feat :=
                  Num (num_of_int (if cat_eqb a y then 1 else 0))]> res)
      | None => Raise (KeyError feat)
      end
  | Num a =>
      match v2 !! feat with
      | Some (Num b) => Ok (<[prefix +:+ feat := Num (abs_diff a b)]> res)
      | Some (Cat _) =>
          Raise (TypeError "unsupported operand type(s) for -")
      | None => Raise (KeyError feat)
      end
  end.

(** [vectors_difference]: [v1] is given by its items in the order of the
    dictionary. *)
Definition vectors_difference (v1 : list (string * feature num))
    (v2 : gmap string (feature num)) (prefix : string)
  : result (gmap string (feature num)) :=
  for_fold v1 (difference_step v2 prefix) ∅.

End Vectors.

(** ** More vocabulary *)

(** The same collaborators with another materializer, or with another
    way to prepare joiners. *)
Definition with_materialize (f : description -> result DataFrame)
    (U : UtilsT) : UtilsT :=
  {| validate_schema := validate_schema U;
     materialize := f;
     json_dumps := json_dumps U |}.

Definition with_prepare_joiner (p : string -> result (option Joiner))
    (support : JoinSupport) : JoinSupport :=
  {| prepare_joiner := p;
     generate_metadata_from_dataframe :=
       generate_metadata_from_dataframe support;
     calculate_dsbox_features := calculate_dsbox_features support |}.

(** The counter and the interval as one view of the builder. *)
Definition allocator {ES FS} (s : IndexBuilder ES FS) : option Z * Z :=
  (current_global_index s, self_GLOBAL_INDEX_INTERVAL s).

(** What an entry of the search result is checked for: its column is a
    column of the table, of object dtype, and without hits for a query
    string it holds between one and ten datasets. *)
Definition entry_ok {Upload} (lib : WebLibrary Upload) (df : DataFrame)
    (query_string_result : option (list GlobalMetadata))
    (entry : column_match) : Prop :=
  (exists column,
     df !! column_idx entry = Some column /\
     is_object_dtype lib column = true) /\
  (truthy_hits query_string_result = false ->
   (0 < length (datasets_metadata entry) <= 10)%nat).

(** What [vectors_difference] holds for a feature [x] of the first
    vector, given the value [y] of the second; [None] where Python
    cannot subtract. *)
Definition difference_of {num} (num_of_int : Z -> num)
    (abs_diff : num -> num -> num) (x y : feature num)
  : option (feature num) :=
  match x, y with
  | Cat a, _ => Some (Num (num_of_int (if cat_eqb a y then 1 else 0)))
  | Num a, Num b => Some (Num (abs_diff a b))
  | Num _, Cat _ => None
  end.

(** The names [bulk_indexing] takes for description files. *)
Definition is_json (name : string) : bool := endswith name ".json".

(** ** More of the small world *)

Module Fixtures.

(** A store that cannot be written to. *)
Definition down_im : IndexManager Sample.ES := {|
  check_exists := check_exists Sample.im;
  create_index := create_index Sample.im;
  delete_index := delete_index Sample.im;
  create_doc := fun _ _ _ _ e =>
    (Raise (ConnectionError "store unreachable"), e);
  update_doc := update_doc Sample.im;
  current_global_datamart_id := current_global_datamart_id Sample.im
|}.

(** A [json.dumps] that refuses the metadata. *)
Definition mute_Utils : UtilsT := {|
  validate_schema := validate_schema Sample.Utils;
  materialize := materialize Sample.Utils;
  json_dumps := fun _ =>
    Raise (TypeError "Object of type int64 is not JSON serializable")
|}.

(** The files of the sample, and a directory without description files. *)
Definition files_with_notes : Sample.FS :=
  <["notes" := Sample.Directory ["readme.txt"; "todo.md"] ]> Sample.files.

Definition fresh_with_notes : IndexBuilder Sample.ES Sample.FS :=
  init ∅ files_with_notes.

(** The builder after [cities] has been indexed once. *)
Definition indexed_once : IndexBuilder Sample.ES Sample.FS :=
  snd (indexing Sample.im Sample.os Sample.Utils Sample.basic_profiler
         "descs/b_description.json" "idx" None false None "a+" false
         Sample.fresh).

(** The web library over uploads that are tables already: a column is of
    object dtype when it holds text. *)
Definition holds_text (column : Series) : bool :=
  existsb (fun c => match c with CStr _ => true | _ => false end) column.

Definition lib : WebLibrary DataFrame := {|
  py_int := fun text =>
    if String.eqb text "1" then Ok 1
    else Raise (ValueError "invalid literal for int() with base 10");
  read_upload := fun df => Ok df;
  is_object_dtype := holds_text
|}.

(** An [Augment] that has the three methods and finds [cities] for every
    column. *)
Definition finding_Augment : AugmentMethods := {|
  query_any_field_with_string := fun _ =>
    Done (Some [Sample.cities_metadata 10000]);
  query_by_column := fun _ _ => Done (Some [Sample.cities_metadata 10000]);
  get_metadata_intersection := fun a _ => Done a
|}.

Definition mixed : DataFrame := [[CInt 1; CInt 2]; [CStr "NY"; CStr "LA"]].

Definition upload_of (df : DataFrame) : Request DataFrame :=
  {| args := ∅; files := {["file" := df]} |}.

(** Two feature vectors over the integers. *)
Definition shirt : list (string * feature Z) :=
  [("color", Cat "red"); ("size", Num 3)].
Definition other_shirt : gmap string (feature Z) :=
  <["color" := Cat "red"]> (<["size" := Num 5]> ∅).
Definition shirt_difference : gmap string (feature Z) :=
  <["d_size" := Num 2]> (<["d_color" := Num 1]> ∅).
Definition int_abs_diff (a b : Z) : Z := Z.abs (a - b).

End Fixtures.

(** * Properties *)

(** ** Running the monad *)

Lemma bind_Ok {St A B} (m : M St A) (k : A -> M St B) s a s' :
  m s = (Ok a, s') -> bind m k s = k a s'.
Proof. intros H. unfold bind. now rewrite H. Qed.

Lemma bind_Raise {St A B} (m : M St A) (k : A -> M St B) s e s' :
  m s = (Raise e, s') -> bind m k s = (Raise e, s').
Proof. intros H. unfold bind. now rewrite H. Qed.

(** A [bind] that returns normally went through both of its halves. *)
Lemma bind_inv_Ok {St A B} (m : M St A) (k : A -> M St B) s b s2 :
  bind m k s = (Ok b, s2) ->
  exists a s1, m s = (Ok a, s1) /\ k a s1 = (Ok b, s2).
Proof.
  unfold bind. destruct (m s) as [[a|e] s1]; intros H.
  - exists a, s1. split; [reflexivity | exact H].
  - discriminate H.
Qed.

Lemma bind_assoc {St A B C} (m : M St A) (k : A -> M St B) (h : B -> M St C) s :
  bind (bind m k) h s = bind m (fun a => bind (k a) h) s.
Proof. unfold bind. destruct (m s) as [[a|e] s1]; reflexivity. Qed.

Lemma bind_ext {St A B} (m : M St A) (k k' : A -> M St B) s :
  (forall a s1, k a s1 = k' a s1) -> bind m k s = bind m k' s.
Proof. intros H. unfold bind. destruct (m s) as [[a|e] s1]; auto. Qed.

Lemma lift_inv_Ok {St A} (r : result A) (s s' : St) a :
  lift r s = (Ok a, s') -> r = Ok a /\ s' = s.
Proof. unfold lift. intros H. injection H as -> ->. auto. Qed.

(** A loop stops at the first iteration that raises: the iterations that
    would follow leave no trace in the outcome. *)
Lemma for_each_stops {St A} (body : A -> M St unit) pre x post s0 s1 s2 e :
  for_each pre body s0 = (Ok tt, s1) ->
  body x s1 = (Raise e, s2) ->
  for_each (pre ++ x :: post) body s0 = (Raise e, s2).
Proof.
  revert s0. induction pre as [|y pre IH]; intros s0 Hpre Hx; simpl in *.
  - unfold ret in Hpre. injection Hpre as <-.
    now apply bind_Raise.
  - apply bind_inv_Ok in Hpre as (u & sy & Hy & Hrest).
    rewrite (bind_Ok _ _ _ _ _ Hy). now apply IH.
Qed.

Lemma for_each_all {St A} (body : A -> M St unit) l x s0 s1 s2 :
  for_each l body s0 = (Ok tt, s1) ->
  body x s1 = (Ok tt, s2) ->
  for_each (l ++ [x]) body s0 = (Ok tt, s2).
Proof.
  revert s0. induction l as [|y l IH]; intros s0 Hl Hx; simpl in *.
  - unfold ret in Hl. injection Hl as <-.
    rewrite (bind_Ok _ _ _ _ _ Hx). reflexivity.
  - apply bind_inv_Ok in Hl as (u & sy & Hy & Hrest).
    rewrite (bind_Ok _ _ _ _ _ Hy). now apply IH.
Qed.

(** ** Framing: what a computation leaves alone *)

Lemma preserves_run {St X A} (f : St -> X) (m : M St A) s r s' :
  preserves f m -> m s = (r, s') -> f s' = f s.
Proof. intros H Hm. specialize (H s). now rewrite Hm in H. Qed.

Lemma preserves_ret {St X A} (f : St -> X) (a : A) : preserves f (ret a).
Proof. intros s. reflexivity. Qed.

Lemma preserves_raise {St X A} (f : St -> X) e : preserves f (@raise St A e).
Proof. intros s. reflexivity. Qed.

Lemma preserves_lift {St X A} (f : St -> X) (r : result A) :
  preserves f (lift r).
Proof. intros s. reflexivity. Qed.

Lemma preserves_observe {St X A} (f : St -> X) (g : St -> result A) :
  preserves f (observe g).
Proof. intros s. reflexivity. Qed.

Lemma preserves_get {St X} (f : St -> X) : preserves f get.
Proof. intros s. reflexivity. Qed.

Lemma preserves_modify {St X} (f : St -> X) (g : St -> St) :
  (forall s, f (g s) = f s) -> preserves f (modify g).
Proof. intros H s. apply H. Qed.

Lemma preserves_bind {St X A B} (f : St -> X) (m : M St A) (k : A -> M St B) :
  preserves f m -> (forall a, preserves f (k a)) -> preserves f (bind m k).
Proof.
  intros Hm Hk s. unfold bind. specialize (Hm s).
  destruct (m s) as [[a|e] s1]; simpl in *.
  - rewrite (Hk a s1). exact Hm.
  - exact Hm.
Qed.

Lemma preserves_try_except {St X A} (f : St -> X) (m : M St A) h :
  preserves f m -> (forall e, preserves f (h e)) -> preserves f (try_except m h).
Proof.
  intros Hm Hh s. unfold try_except. specialize (Hm s).
  destruct (m s) as [[a|e] s1]; simpl in *.
  - exact Hm.
  - rewrite (Hh e s1). exact Hm.
Qed.

Lemma preserves_for_each {St X A} (f : St -> X) (l : list A) body :
  (forall x, preserves f (body x)) -> preserves f (for_each l body).
Proof.
  intros Hbody. induction l as [|x l IH]; simpl.
  - apply preserves_ret.
  - apply preserves_bind; [apply Hbody | intros _; exact IH].
Qed.

(** ** Column identifiers *)

Section ColumnIds.
Context {ES FS : Type}.
Variable basic_profiler : BasicProfiler.

Lemma basic_profiling_column_id d v column v' :
  basic_profiling_column basic_profiler d v column = Ok v' ->
  v_datamart_id v' = v_datamart_id v.
Proof.
  unfold basic_profiling_column.
  destruct (profile_column _ _ _); intros H; inversion H; reflexivity.
Qed.

Lemma construct_variable_metadata_id d D col_offset data v :
  construct_variable_metadata basic_profiler d D col_offset data = Ok v ->
  v_datamart_id v = Z.of_nat col_offset + D + 1.
Proof.
  unfold construct_variable_metadata. destruct data as [df|].
  - destruct (iloc_col df col_offset) as [column|e]; [|discriminate].
    intros H. apply basic_profiling_column_id in H. exact H.
  - intros H. inversion H. reflexivity.
Qed.

Lemma basic_profiling_entire_keeps g df g' :
  basic_profiling_entire basic_profiler g df = Ok g' ->
  datamart_id g' = datamart_id g /\ variables g' = variables g.
Proof.
  unfold basic_profiling_entire.
  destruct (profile_table _ _); intros H; inversion H; auto.
Qed.

(** The loop over the columns appends one variable per column, in the
    order of the loop, each with the id of its offset. *)
Lemma for_fold_add_column D data cols g g' :
  for_fold cols (add_column basic_profiler D data) g = Ok g' ->
  datamart_id g' = datamart_id g /\
  map v_datamart_id (variables g') =
    map v_datamart_id (variables g)
    ++ map (fun col : nat * variable_description =>
              Z.of_nat (fst col) + D + 1) cols.
Proof.
  revert g. induction cols as [|col cols IH]; intros g H; simpl in H.
  - inversion H. simpl. now rewrite app_nil_r.
  - unfold add_column in H at 1.
    destruct (construct_variable_metadata _ _ _ _ _) as [v|e] eqn:Hv;
      [|discriminate].
    apply construct_variable_metadata_id in Hv.
    apply IH in H as [Hid Hvars]. simpl in Hid, Hvars.
    split; [exact Hid|].
    rewrite Hvars, map_app. simpl. rewrite Hv, <- app_assoc. reflexivity.
Qed.

Lemma enumerate_offsets {A} (f : nat -> Z) (l : list A) n :
  map (fun col : nat * A => f (fst col)) (combine (seq n (length l)) l) =
  map f (seq n (length l)).
Proof.
  revert n. induction l as [|x l IH]; intros n; simpl; [reflexivity|].
  now rewrite IH.
Qed.

Lemma range_offsets (f : nat -> Z) n :
  map (fun col : nat * variable_description => f (fst col))
      (map (fun i => (i, empty_variable_description)) (range n)) =
  map f (seq 0 n).
Proof. unfold range. rewrite map_map. reflexivity. Qed.

(** What any successful construction looks like: the id is the one the
    first step resolved, nothing but that step touches the builder's
    counter, and the variables carry the ids of their offsets. *)
Lemma construct_global_metadata_inv d data overwrite
    (self self' : IndexBuilder ES FS) m :
  construct_global_metadata basic_profiler d data overwrite self
    = (Ok m, self') ->
  (exists s1,
     (if negb (truthy_opt_int overwrite) then advance_global_index
      else ret (default 0 overwrite)) self = (Ok (datamart_id m), s1) /\
     same_builder s1 self') /\
  map v_datamart_id (variables m) =
    map (fun i => Z.of_nat i + datamart_id m + 1)
        (seq 0 (column_count d data)).
Proof.
  unfold construct_global_metadata. intros H.
  apply bind_inv_Ok in H as (D & s1 & Halloc & H).
  apply bind_inv_Ok in H as (g & s2 & Hloop & Hlast).
  assert (Hg : datamart_id g = D /\ same_builder s1 s2 /\
               map v_datamart_id (variables g) =
                 map (fun i => Z.of_nat i + D + 1)
                     (seq 0 (column_count d data))).
  { unfold column_count.
    destruct (d_variables d) as [[|v vs]|], data as [df|];
      cbv beta iota in Hloop |- *.
    all: try (apply bind_inv_Ok in Hloop as (u & s3 & Hwarn & Hloop);
              unfold ret in Hloop; injection Hloop as <- <-;
              unfold warn, modify in Hwarn; injection Hwarn as _ <-;
              repeat split; reflexivity).
    all: apply lift_inv_Ok in Hloop as [Hloop ->];
      apply for_fold_add_column in Hloop as [Hid Hvars];
      (split; [exact Hid|]); (split; [repeat split; reflexivity|]);
      rewrite Hvars; simpl map at 1; simpl app.
    2, 3: unfold enumerate;
      exact (enumerate_offsets (fun i => Z.of_nat i + D + 1) (v :: vs) 0).
    all: exact (range_offsets (fun i => Z.of_nat i + D + 1) (shape1 df)). }
  destruct Hg as (HgD & Hsame & Hgv).
  destruct data as [df|].
  - apply lift_inv_Ok in Hlast as [Hlast ->].
    apply basic_profiling_entire_keeps in Hlast as [Hid Hv].
    rewrite Hv, Hid, HgD. split; [|exact Hgv].
    exists s1. split; assumption.
  - unfold ret in Hlast. injection Hlast as <- <-. rewrite HgD.
    split; [|exact Hgv]. exists s1. split; assumption.
Qed.

(** A fresh id is the counter plus the interval, and the counter moves
    to it. *)
Lemma advance_global_index_inv (self s1 : IndexBuilder ES FS) D :
  advance_global_index self = (Ok D, s1) ->
  exists c,
    current_global_index self = Some c /\
    D = c + self_GLOBAL_INDEX_INTERVAL self /\
    s1 = set_current_global_index (Some D) self.
Proof.
  unfold advance_global_index, bind, get, modify, ret, raise.
  destruct (current_global_index self) as [c|]; intros H.
  - injection H as <- <-. exists c. auto.
  - discriminate H.
Qed.

Lemma construct_global_metadata_fresh d data
    (self self' : IndexBuilder ES FS) m :
  construct_global_metadata basic_profiler d data None self
    = (Ok m, self') ->
  exists c,
    current_global_index self = Some c /\
    datamart_id m = c + self_GLOBAL_INDEX_INTERVAL self /\
    current_global_index self' = Some (datamart_id m) /\
    self_GLOBAL_INDEX_INTERVAL self' = self_GLOBAL_INDEX_INTERVAL self.
Proof.
  intros H. apply construct_global_metadata_inv in H as [(s1 & Ha & Hs) _].
  simpl in Ha. apply advance_global_index_inv in Ha as (c & Hc & HD & ->).
  destruct Hs as (Hs1 & Hs2 & _). simpl in Hs1, Hs2.
  exists c. repeat split; congruence.
Qed.

End ColumnIds.

(** ** Framing the index builder *)

Section BuilderFrames.
Context {ES FS : Type}.
Variable im : IndexManager ES.
Variable os : FileSystem FS.
Variable Utils : UtilsT.
Variable basic_profiler : BasicProfiler.

Context {X : Type}.
Variable f : IndexBuilder ES FS -> X.

Lemma preserves_on_es {A} (m : M ES A) : blind_to_es f -> preserves f (on_es m).
Proof.
  intros Hf s. unfold on_es. destruct (m (es s)) as [r e]. apply Hf.
Qed.

Lemma preserves_on_fs {A} (m : M FS A) : blind_to_fs f -> preserves f (on_fs m).
Proof.
  intros Hf s. unfold on_fs. destruct (m (fs s)) as [r x]. apply Hf.
Qed.

Ltac frame :=
  repeat first
    [ progress cbv beta
    | apply preserves_ret | apply preserves_raise | apply preserves_lift
    | apply preserves_observe | apply preserves_get
    | apply preserves_modify; intros ?; solve [auto]
    | apply preserves_on_es; solve [auto]
    | apply preserves_on_fs; solve [auto]
    | apply preserves_try_except; [|intros ?]
    | apply preserves_bind; [|intros ?]
    | match goal with
      | |- preserves _ (if ?b then _ else _) => destruct b
      | |- preserves _ (match ?x with _ => _ end) => destruct x
      end ].

Lemma preserves_check_es_index es_index delete_old :
  blind_to_es f -> preserves f (_check_es_index im es_index delete_old).
Proof. intros Hes. unfold _check_es_index, ask_es. frame. Qed.

Lemma preserves_read_data description_path data_path :
  preserves f (_read_data os Utils description_path data_path).
Proof. unfold _read_data, ask_fs. frame. Qed.

Lemma preserves_materialize_if_asked d data query_data :
  blind_to_stdout f -> preserves f (materialize_if_asked Utils d data query_data).
Proof.
  intros Hout. unfold materialize_if_asked, print_exc, warn. frame.
Qed.

Lemma preserves_advance_global_index :
  blind_to_counter f -> preserves f advance_global_index.
Proof. intros Hc. unfold advance_global_index. frame. Qed.

Lemma preserves_construct_global_metadata d data overwrite :
  blind_to_counter f -> blind_to_stdout f ->
  preserves f (construct_global_metadata basic_profiler d data overwrite).
Proof.
  intros Hc Hout. unfold construct_global_metadata, warn.
  apply preserves_bind.
  - destruct (negb _); [now apply preserves_advance_global_index|].
    apply preserves_ret.
  - intros D. frame.
Qed.

Lemma preserves_indexing_read description_path es_index data_path delete_old :
  blind_to_es f -> blind_to_counter f -> blind_to_stdout f ->
  preserves f (indexing_read im os Utils description_path es_index data_path
                 delete_old).
Proof.
  intros Hes Hc Hout. unfold indexing_read, print, ask_es.
  apply preserves_bind; [frame|intros _].
  apply preserves_bind; [now apply preserves_check_es_index|intros _].
  apply preserves_bind; [frame|intros self].
  apply preserves_bind; [frame|intros _].
  apply preserves_read_data.
Qed.

Lemma preserves_updating_read description_path es_index data_path :
  blind_to_es f ->
  preserves f (updating_read im os Utils description_path es_index data_path).
Proof.
  intros Hes. unfold updating_read.
  apply preserves_bind; [now apply preserves_check_es_index|intros _].
  apply preserves_read_data.
Qed.

End BuilderFrames.

(** ** The methods are their phases in sequence *)

Section PhaseEquations.
Context {ES FS : Type}.
Variable im : IndexManager ES.
Variable os : FileSystem FS.
Variable Utils : UtilsT.
Variable basic_profiler : BasicProfiler.

Lemma indexing_phases description_path es_index data_path
    query_data_for_indexing save_to_file save_to_file_mode
    delete_old_es_index (self : IndexBuilder ES FS) :
  indexing im os Utils basic_profiler description_path es_index data_path
    query_data_for_indexing save_to_file save_to_file_mode
    delete_old_es_index self
  = bind (indexing_read im os Utils description_path es_index data_path
            delete_old_es_index)
      (fun read =>
         data <- materialize_if_asked Utils (fst read) (snd read)
                   query_data_for_indexing ;;
         indexing_from im os Utils basic_profiler (fst read) data es_index
           save_to_file save_to_file_mode) self.
Proof.
  unfold indexing, indexing_read.
  do 4 (rewrite bind_assoc; apply bind_ext; intros ? ?).
  reflexivity.
Qed.

Lemma indexing_build_persist description_path es_index data_path
    query_data_for_indexing save_to_file save_to_file_mode
    delete_old_es_index (self : IndexBuilder ES FS) :
  indexing im os Utils basic_profiler description_path es_index data_path
    query_data_for_indexing save_to_file save_to_file_mode
    delete_old_es_index self
  = bind (indexing_build im os Utils basic_profiler description_path
            es_index data_path query_data_for_indexing delete_old_es_index)
      (indexing_persist im os Utils es_index save_to_file save_to_file_mode)
      self.
Proof.
  rewrite indexing_phases. unfold indexing_build, indexing_from.
  rewrite bind_assoc. apply bind_ext; intros read s1.
  rewrite bind_assoc. apply bind_ext; intros data s2.
  rewrite bind_assoc. apply bind_ext; intros metadata s3.
  reflexivity.
Qed.

Lemma updating_phases description_path es_index document_id data_path
    query_data_for_updating (self : IndexBuilder ES FS) :
  updating im os Utils basic_profiler description_path es_index document_id
    data_path query_data_for_updating self
  = bind (updating_read im os Utils description_path es_index data_path)
      (fun read =>
         data <- materialize_if_asked Utils (fst read) (snd read)
                   query_data_for_updating ;;
         updating_from im Utils basic_profiler (fst read) data es_index
           document_id) self.
Proof.
  unfold updating, updating_read.
  rewrite bind_assoc. apply bind_ext; intros ? ?.
  reflexivity.
Qed.

End PhaseEquations.

(** ** The claims about the identifier space *)

Section Identifiers.
Context {ES FS : Type}.
Variable im : IndexManager ES.
Variable os : FileSystem FS.
Variable Utils : UtilsT.
Variable basic_profiler : BasicProfiler.

(** C3.  When metadata is constructed with dataset id [D] for a dataset
    of [k] columns (the variables of the description, or else the
    columns of the data), it has [k] variables and their ids are
    [D+1, ..., D+k] in column order: the column at zero-based offset
    [i] has id [i + D + 1]. *)
Theorem C3_column_ids d data overwrite (self self' : IndexBuilder ES FS) m :
  construct_global_metadata basic_profiler d data overwrite self
    = (Ok m, self') ->
  length (variables m) = column_count d data /\
  map v_datamart_id (variables m) =
    map (fun i => Z.of_nat i + datamart_id m + 1)
        (seq 0 (column_count d data)) /\
  (forall (i : nat) v,
     variables m !! i = Some v ->
     v_datamart_id v = Z.of_nat i + datamart_id m + 1).
Proof.
  intros H. apply construct_global_metadata_inv in H as [_ Hids].
  assert (Hlen : length (variables m) = column_count d data).
  { rewrite <- (length_map v_datamart_id), Hids, length_map.
    apply length_seq. }
  split; [exact Hlen|]. split; [exact Hids|].
  intros i v Hi.
  assert (Hmap : map v_datamart_id (variables m) !! i
                 = Some (v_datamart_id v)).
  { rewrite list_lookup_fmap, Hi. reflexivity. }
  rewrite Hids, list_lookup_fmap in Hmap.
  destruct (seq 0 (column_count d data) !! i) as [j|] eqn:Hj;
    [|discriminate].
  apply lookup_seq in Hj as [-> _]. simpl in Hmap. congruence.
Qed.

(** C4.  Two metadata constructions in a row on one builder, neither
    with an overwrite id: the second dataset id is the first plus the
    builder's interval, so with a positive interval (it is 10000 unless
    changed) the ids differ and grow. *)
Theorem C4_successive_ids d1 data1 d2 data2
    (self self1 self2 : IndexBuilder ES FS) m1 m2 :
  0 < self_GLOBAL_INDEX_INTERVAL self ->
  construct_global_metadata basic_profiler d1 data1 None self
    = (Ok m1, self1) ->
  construct_global_metadata basic_profiler d2 data2 None self1
    = (Ok m2, self2) ->
  datamart_id m2 = datamart_id m1 + self_GLOBAL_INDEX_INTERVAL self /\
  datamart_id m1 <> datamart_id m2 /\
  datamart_id m1 < datamart_id m2 /\
  current_global_index self1 = Some (datamart_id m1) /\
  current_global_index self2 = Some (datamart_id m2).
Proof.
  intros Hpos H1 H2.
  apply construct_global_metadata_fresh in H1 as (c1 & Hc1 & Hm1 & Hs1 & Hi1).
  apply construct_global_metadata_fresh in H2 as (c2 & Hc2 & Hm2 & Hs2 & Hi2).
  rewrite Hs1 in Hc2. injection Hc2 as <-. rewrite Hi1 in Hm2.
  repeat split; try assumption; lia.
Qed.


End Identifiers.

(** ** The claims about [indexing], [updating] and [bulk_indexing] *)

Section Indexing.
Context {ES FS : Type}.
Variable im : IndexManager ES.
Variable os : FileSystem FS.
Variable Utils : UtilsT.
Variable basic_profiler : BasicProfiler.

Lemma preserves_tail {St X A B} (f : St -> X) (m : M St A)
    (k : A -> M St B) s :
  (forall a, preserves f (k a)) -> f (snd (bind m k s)) = f (snd (m s)).
Proof.
  intros Hk. unfold bind. destruct (m s) as [[a|e] s1]; simpl.
  - apply Hk.
  - reflexivity.
Qed.

(** The index check looks at the cluster and at nothing else. *)
Lemma check_es_index_es es_index delete_old (s s' : IndexBuilder ES FS) :
  es s = es s' ->
  es (snd (_check_es_index im es_index delete_old s))
  = es (snd (_check_es_index im es_index delete_old s')).
Proof.
  intros H. unfold _check_es_index, ask_es, on_es, observe, bind, ret.
  cbv beta. rewrite <- H.
  destruct (check_exists im es_index (es s)) as [[|]|e]; simpl;
    [destruct delete_old; simpl| |];
    rewrite <- ?H;
    repeat (match goal with
            | |- context [create_index ?i ?x ?e] =>
                destruct (create_index i x e) as [[?|?] ?]
            | |- context [delete_index ?i ?x ?e] =>
                destruct (delete_index i x e) as [[?|?] ?]
            end; simpl);
    auto.
Qed.

(** After the read phase the cluster is as the index check left it. *)
Lemma indexing_read_es description_path es_index data_path delete_old
    (self : IndexBuilder ES FS) :
  es (snd (indexing_read im os Utils description_path es_index data_path
             delete_old self))
  = es (snd (_check_es_index im es_index delete_old self)).
Proof.
  unfold indexing_read.
  rewrite (bind_Ok _ _ self tt
             (emit (Print ("==== Creating metadata and indexing for "
                           +:+ description_path)) self) eq_refl).
  rewrite preserves_tail.
  - now apply check_es_index_es.
  - intros _. apply preserves_bind; [apply preserves_get|intros s0].
    apply preserves_bind.
    + destruct (_ || _).
      * apply preserves_bind; [apply preserves_observe|intros c].
        apply preserves_modify. reflexivity.
      * apply preserves_ret.
    + intros _. apply preserves_read_data.
Qed.

Lemma updating_read_es description_path es_index data_path
    (self : IndexBuilder ES FS) :
  es (snd (updating_read im os Utils description_path es_index data_path
             self))
  = es (snd (_check_es_index im es_index false self)).
Proof.
  unfold updating_read. apply preserves_tail.
  intros _. apply preserves_read_data.
Qed.

(** With a path to data, whatever [_read_data] returns holds a
    DataFrame; without one, it holds none. *)
Lemma read_data_with_path description_path p (s s' : IndexBuilder ES FS)
    d data :
  truthy_str p = true ->
  _read_data os Utils description_path (Some p) s = (Ok (d, data), s') ->
  exists df, data = Some df.
Proof.
  intros Hp H. unfold _read_data in H. rewrite Hp in H.
  apply bind_inv_Ok in H as (d0 & s1 & _ & H).
  apply bind_inv_Ok in H as (u & s2 & _ & H).
  apply bind_inv_Ok in H as (df & s3 & _ & H).
  unfold ret in H. injection H as _ <- _. now exists df.
Qed.

Lemma read_data_without_path description_path (s s' : IndexBuilder ES FS)
    d data :
  _read_data os Utils description_path None s = (Ok (d, data), s') ->
  data = None.
Proof.
  intros H. unfold _read_data in H.
  apply bind_inv_Ok in H as (d0 & s1 & _ & H).
  apply bind_inv_Ok in H as (u & s2 & _ & H).
  unfold ret in H. injection H as _ <- _. reflexivity.
Qed.

Lemma indexing_read_inv description_path es_index data_path delete_old
    (self s1 : IndexBuilder ES FS) read :
  indexing_read im os Utils description_path es_index data_path delete_old
    self = (Ok read, s1) ->
  exists s0, _read_data os Utils description_path data_path s0 = (Ok read, s1).
Proof.
  intros H. unfold indexing_read in H.
  apply bind_inv_Ok in H as (u1 & t1 & _ & H).
  apply bind_inv_Ok in H as (u2 & t2 & _ & H).
  apply bind_inv_Ok in H as (u3 & t3 & _ & H).
  apply bind_inv_Ok in H as (u4 & t4 & _ & H).
  now exists t4.
Qed.

Lemma updating_read_inv description_path es_index data_path
    (self s1 : IndexBuilder ES FS) read :
  updating_read im os Utils description_path es_index data_path self
    = (Ok read, s1) ->
  exists s0, _read_data os Utils description_path data_path s0 = (Ok read, s1).
Proof.
  intros H. unfold updating_read in H.
  apply bind_inv_Ok in H as (u1 & t1 & _ & H).
  now exists t1.
Qed.

(** A DataFrame stops [materialize_if_asked] at its first line. *)
Lemma materialize_if_asked_data d df query_data (s : IndexBuilder ES FS) :
  materialize_if_asked Utils d (Some df) query_data s
  = (Raise (ValueError "The truth value of a DataFrame is ambiguous"), s).
Proof. reflexivity. Qed.

Lemma preserves_indexing_build {X} (f : IndexBuilder ES FS -> X)
    description_path es_index data_path query_data delete_old :
  blind_to_es f -> blind_to_counter f -> blind_to_stdout f ->
  preserves f (indexing_build im os Utils basic_profiler description_path
                 es_index data_path query_data delete_old).
Proof.
  intros Hes Hc Hout. unfold indexing_build.
  apply preserves_bind; [now apply preserves_indexing_read|intros read].
  apply preserves_bind;
    [now apply preserves_materialize_if_asked|intros data].
  apply preserves_bind;
    [now apply preserves_construct_global_metadata|intros m].
  apply preserves_ret.
Qed.

Lemma indexing_build_es description_path es_index data_path query_data
    delete_old (self : IndexBuilder ES FS) :
  es (snd (indexing_build im os Utils basic_profiler description_path
             es_index data_path query_data delete_old self))
  = es (snd (_check_es_index im es_index delete_old self)).
Proof.
  unfold indexing_build. rewrite preserves_tail.
  - apply indexing_read_es.
  - intros read.
    apply preserves_bind;
      [apply preserves_materialize_if_asked; intros ? ?; reflexivity
      |intros data].
    apply preserves_bind;
      [apply preserves_construct_global_metadata; intros ? ?; reflexivity
      |intros m].
    apply preserves_ret.
Qed.

(** Without data, the columns get no statistics. *)
Lemma for_fold_add_column_schema_only D cols g g' :
  for_fold cols (add_column basic_profiler D None) g = Ok g' ->
  Forall (fun v => v_stats v = None) (variables g) ->
  g_stats g' = g_stats g /\
  Forall (fun v => v_stats v = None) (variables g').
Proof.
  revert g. induction cols as [|col cols IH]; intros g H Hg; simpl in H.
  - injection H as <-. auto.
  - apply IH in H as [Hs Hv]; [auto|].
    simpl. apply Forall_app. split; [exact Hg|]. repeat constructor.
Qed.

Lemma construct_global_metadata_schema_only d overwrite
    (s s' : IndexBuilder ES FS) m :
  construct_global_metadata basic_profiler d None overwrite s = (Ok m, s') ->
  g_stats m = None /\ Forall (fun v => v_stats v = None) (variables m).
Proof.
  unfold construct_global_metadata. intros H.
  apply bind_inv_Ok in H as (D & s1 & _ & H).
  apply bind_inv_Ok in H as (g & s2 & Hloop & H).
  unfold ret in H. injection H as <- _.
  destruct (d_variables d) as [[|v vs]|]; cbv beta iota in Hloop.
  2: { apply lift_inv_Ok in Hloop as [Hloop _].
       apply for_fold_add_column_schema_only in Hloop; [exact Hloop|].
       constructor. }
  all: apply bind_inv_Ok in Hloop as (u & s3 & _ & Hloop);
    unfold ret in Hloop; injection Hloop as <- _;
    split; [reflexivity|constructor].
Qed.

(** C1, as the code has it.  [bulk_indexing] takes the description
    files in the order of the directory listing, and an exception raised
    while one record is indexed leaves [bulk_indexing] as that exception:
    the records listed before it have been processed, the builder is as
    the failing record left it, and whatever is listed after it is not
    looked at. *)
Theorem C1_batch_stops_at_first_failure description_dir es_index data_dir
    query_data_for_indexing save_to_file save_to_file_mode
    delete_old_es_index (self s0 s1 s2 : IndexBuilder ES FS)
    pre failing post e :
  _check_es_index im es_index delete_old_es_index self = (Ok tt, s0) ->
  listdir os description_dir (fs s0) = Ok (pre ++ failing :: post) ->
  for_each pre
    (bulk_indexing_step im os Utils basic_profiler description_dir es_index
       data_dir query_data_for_indexing save_to_file save_to_file_mode)
    s0 = (Ok tt, s1) ->
  bulk_indexing_step im os Utils basic_profiler description_dir es_index
    data_dir query_data_for_indexing save_to_file save_to_file_mode
    failing s1 = (Raise e, s2) ->
  bulk_indexing im os Utils basic_profiler description_dir es_index data_dir
    query_data_for_indexing save_to_file save_to_file_mode
    delete_old_es_index self = (Raise e, s2).
Proof.
  intros Hcheck Hlist Hpre Hfail. unfold bulk_indexing.
  rewrite (bind_Ok _ _ _ _ _ Hcheck).
  assert (Hnames : ask_fs (listdir os description_dir) s0
                   = (Ok (pre ++ failing :: post), s0)).
  { unfold ask_fs, observe. now rewrite Hlist. }
  rewrite (bind_Ok _ _ _ _ _ Hnames).
  exact (for_each_stops _ _ _ _ _ _ _ _ Hpre Hfail).
Qed.

(** C2, as the code has it.  When [indexing] or [updating] is given a
    non-empty [data_path], the call raises and stops where its read
    phase ended: either [_read_data] raised, or it returned a DataFrame
    and [not data] raised [ValueError].  No metadata is constructed, the
    file system is as before the call, and the cluster has seen the
    index check only. *)
Theorem C2_data_path_never_completes description_path es_index p
    query_data save_to_file save_to_file_mode delete_old_es_index
    document_id (self : IndexBuilder ES FS) :
  truthy_str p = true ->
  let ambiguous :=
    ValueError "The truth value of a DataFrame is ambiguous" in
  let r := indexing_read im os Utils description_path es_index (Some p)
             delete_old_es_index self in
  let u := updating_read im os Utils description_path es_index (Some p)
             self in
  (indexing im os Utils basic_profiler description_path es_index (Some p)
     query_data save_to_file save_to_file_mode delete_old_es_index self
   = (match fst r with Ok _ => Raise ambiguous | Raise e => Raise e end,
      snd r) /\
   fs (snd r) = fs self /\
   es (snd r) = es (snd (_check_es_index im es_index delete_old_es_index
                           self))) /\
  (updating im os Utils basic_profiler description_path es_index
     document_id (Some p) query_data self
   = (match fst u with Ok _ => Raise ambiguous | Raise e => Raise e end,
      snd u) /\
   fs (snd u) = fs self /\
   es (snd u) = es (snd (_check_es_index im es_index false self))).
Proof.
  intros Hp ambiguous r u. split; split.
  - rewrite indexing_phases. unfold bind. subst r.
    destruct (indexing_read _ _ _ _ _ _ _ self) as [[[d data]|e] s1] eqn:Hr;
      [|reflexivity].
    destruct (indexing_read_inv _ _ _ _ _ _ _ Hr) as [s0 Hread].
    destruct (read_data_with_path _ _ _ _ _ _ Hp Hread) as [df ->].
    reflexivity.
  - split.
    + apply preserves_indexing_read; intros ? ?; reflexivity.
    + apply indexing_read_es.
  - rewrite updating_phases. unfold bind. subst u.
    destruct (updating_read _ _ _ _ _ _ self) as [[[d data]|e] s1] eqn:Hr;
      [|reflexivity].
    destruct (updating_read_inv _ _ _ _ _ _ Hr) as [s0 Hread].
    destruct (read_data_with_path _ _ _ _ _ _ Hp Hread) as [df ->].
    reflexivity.
  - split.
    + apply preserves_updating_read; intros ? ?; reflexivity.
    + apply updating_read_es.
Qed.

(** C8.  [indexing] without data and with [query_data_for_indexing]
    set: when the materializer raises, the exception is caught, printed
    and answered with a warning, and [indexing] goes on exactly as the
    schema-only call (the one with the flag unset) does from there.  The
    metadata it returns has no statistics. *)
Theorem C8_materialization_failure_is_not_fatal description_path es_index
    save_to_file save_to_file_mode delete_old_es_index
    (self s1 : IndexBuilder ES FS) d data e :
  indexing_read im os Utils description_path es_index None
    delete_old_es_index self = (Ok (d, data), s1) ->
  materialize Utils d = Raise e ->
  let warned :=
    emit (Warn "Materialization Failed, index based on schema json only")
      (emit (PrintExc e) s1) in
  data = None /\
  indexing im os Utils basic_profiler description_path es_index None true
    save_to_file save_to_file_mode delete_old_es_index self
  = indexing_from im os Utils basic_profiler d None es_index save_to_file
      save_to_file_mode warned /\
  indexing im os Utils basic_profiler description_path es_index None false
    save_to_file save_to_file_mode delete_old_es_index self
  = indexing_from im os Utils basic_profiler d None es_index save_to_file
      save_to_file_mode s1 /\
  (forall m s2,
     indexing im os Utils basic_profiler description_path es_index None true
       save_to_file save_to_file_mode delete_old_es_index self = (Ok m, s2) ->
     g_stats m = None /\ Forall (fun v => v_stats v = None) (variables m)).
Proof.
  intros Hr Hmat warned.
  assert (Hdata : data = None).
  { destruct (indexing_read_inv _ _ _ _ _ _ _ Hr) as [s0 Hread].
    exact (read_data_without_path _ _ _ _ _ Hread). }
  subst data.
  assert (Htrue :
    indexing im os Utils basic_profiler description_path es_index None true
      save_to_file save_to_file_mode delete_old_es_index self
    = indexing_from im os Utils basic_profiler d None es_index save_to_file
        save_to_file_mode warned).
  { rewrite indexing_phases, (bind_Ok _ _ _ _ _ Hr). simpl fst; simpl snd.
    rewrite (bind_Ok _ _ s1 None warned); [reflexivity|].
    unfold materialize_if_asked, try_except, bind, lift, not_data; simpl.
    rewrite Hmat. reflexivity. }
  split; [reflexivity|]. split; [exact Htrue|]. split.
  - rewrite indexing_phases, (bind_Ok _ _ _ _ _ Hr). reflexivity.
  - intros m s2 H. rewrite Htrue in H. unfold indexing_from in H.
    apply bind_inv_Ok in H as (m0 & s3 & Hcons & H).
    apply construct_global_metadata_schema_only in Hcons.
    unfold indexing_persist in H.
    apply bind_inv_Ok in H as (u1 & t1 & _ & H).
    apply bind_inv_Ok in H as (u2 & t2 & _ & H).
    apply bind_inv_Ok in H as (u3 & t3 & _ & H).
    unfold ret in H. injection H as <- _. exact Hcons.
Qed.

(** C9.  In [indexing] the metadata is validated before anything is
    written.  When the validation of the constructed metadata raises,
    [indexing] raises that exception and stops there: the file system
    is as before the call (no mirror file was opened or written), and
    the cluster is as the index check left it (no document was
    created). *)
Theorem C9_validation_before_persistence description_path es_index
    data_path query_data_for_indexing save_to_file save_to_file_mode
    delete_old_es_index (self s1 : IndexBuilder ES FS) m e :
  indexing_build im os Utils basic_profiler description_path es_index
    data_path query_data_for_indexing delete_old_es_index self
    = (Ok m, s1) ->
  validate_schema Utils (MetadataDoc m) = Raise e ->
  indexing im os Utils basic_profiler description_path es_index data_path
    query_data_for_indexing save_to_file save_to_file_mode
    delete_old_es_index self = (Raise e, s1) /\
  fs s1 = fs self /\
  es s1 = es (snd (_check_es_index im es_index delete_old_es_index self)).
Proof.
  intros Hbuild Hval. split; [|split].
  - rewrite indexing_build_persist, (bind_Ok _ _ _ _ _ Hbuild).
    unfold indexing_persist. apply bind_Raise.
    unfold lift. now rewrite Hval.
  - refine (preserves_run fs _ _ _ _ _ Hbuild).
    apply preserves_indexing_build; intros ? ?; reflexivity.
  - rewrite <- (indexing_build_es description_path es_index data_path
                  query_data_for_indexing delete_old_es_index self).
    now rewrite Hbuild.
Qed.

Lemma preserves_save_data {X} (f : IndexBuilder ES FS -> X) path mode m :
  blind_to_fs f -> preserves f (_save_data os Utils path mode m).
Proof.
  intros Hfs. unfold _save_data.
  repeat (apply preserves_bind;
          [first [now apply preserves_on_fs | apply preserves_lift]
          |intros ?]).
  now apply preserves_on_fs.
Qed.

Lemma preserves_indexing_persist {X} (f : IndexBuilder ES FS -> X)
    es_index save_to_file mode m :
  blind_to_es f -> blind_to_fs f ->
  preserves f (indexing_persist im os Utils es_index save_to_file mode m).
Proof.
  intros Hes Hfs. unfold indexing_persist.
  apply preserves_bind; [apply preserves_lift|intros _].
  apply preserves_bind.
  - destruct save_to_file as [path|]; [|apply preserves_ret].
    destruct (truthy_str path); [|apply preserves_ret].
    now apply preserves_save_data.
  - intros _. apply preserves_bind; [now apply preserves_on_es|intros _].
    apply preserves_ret.
Qed.

(** With a counter that counts as set and no request to delete the
    index, the read phase leaves the counter alone. *)
Lemma indexing_read_keeps_counter description_path es_index data_path
    (self : IndexBuilder ES FS) :
  truthy_opt_int (current_global_index self) = true ->
  current_global_index
    (snd (indexing_read im os Utils description_path es_index data_path
            false self))
  = current_global_index self.
Proof.
  intros Hset. unfold indexing_read.
  rewrite (bind_Ok _ _ self tt
             (emit (Print ("==== Creating metadata and indexing for "
                           +:+ description_path)) self) eq_refl).
  unfold bind at 1.
  destruct (_check_es_index im es_index false _) as [[u|e] s1] eqn:Hcheck;
    apply (preserves_run current_global_index) in Hcheck;
    try (apply preserves_check_es_index; intros ? ?; reflexivity);
    simpl in Hcheck; [|exact Hcheck].
  unfold bind at 1. unfold get at 1. cbv beta iota.
  rewrite Hcheck, Hset. simpl negb. cbv iota.
  rewrite (bind_Ok _ _ s1 tt s1 eq_refl).
  rewrite (preserves_read_data os Utils current_global_index _ _ s1).
  exact Hcheck.
Qed.

(** What a successful [indexing] went through. *)
Lemma indexing_inv description_path es_index data_path query_data
    save_to_file save_to_file_mode delete_old_es_index
    (self self' : IndexBuilder ES FS) m :
  indexing im os Utils basic_profiler description_path es_index data_path
    query_data save_to_file save_to_file_mode delete_old_es_index self
    = (Ok m, self') ->
  exists d data (s1 s2 : IndexBuilder ES FS),
    current_global_index s1
      = current_global_index
          (snd (indexing_read im os Utils description_path es_index
                  data_path delete_old_es_index self)) /\
    self_GLOBAL_INDEX_INTERVAL s1 = self_GLOBAL_INDEX_INTERVAL self /\
    construct_global_metadata basic_profiler d data None s1 = (Ok m, s2) /\
    current_global_index self' = current_global_index s2 /\
    self_GLOBAL_INDEX_INTERVAL self' = self_GLOBAL_INDEX_INTERVAL s2.
Proof.
  intros H. rewrite indexing_phases in H.
  apply bind_inv_Ok in H as (read & sa & Hread & H).
  apply bind_inv_Ok in H as (data & sb & Hmat & H).
  unfold indexing_from in H.
  apply bind_inv_Ok in H as (m0 & sc & Hcons & H).
  assert (Hm : m = m0).
  { unfold indexing_persist in H.
    apply bind_inv_Ok in H as (u1 & t1 & _ & H).
    apply bind_inv_Ok in H as (u2 & t2 & _ & H).
    apply bind_inv_Ok in H as (u3 & t3 & _ & H).
    unfold ret in H. injection H as <- _. now destruct data. }
  subst m0. exists (fst read), data, sb, sc.
  split; [|split; [|split; [exact Hcons|split]]].
  - rewrite Hread. simpl.
    refine (preserves_run current_global_index _ _ _ _ _ Hmat).
    apply preserves_materialize_if_asked. intros ? ?; reflexivity.
  - rewrite (preserves_run _ _ _ _ _
               (preserves_materialize_if_asked Utils
                  self_GLOBAL_INDEX_INTERVAL _ _ _ (fun _ _ => eq_refl))
               Hmat).
    refine (preserves_run self_GLOBAL_INDEX_INTERVAL _ _ _ _ _ Hread).
    apply preserves_indexing_read; intros ? ?; reflexivity.
  - refine (preserves_run current_global_index _ _ _ _ _ H).
    apply preserves_indexing_persist; intros ? ?; reflexivity.
  - refine (preserves_run self_GLOBAL_INDEX_INTERVAL _ _ _ _ _ H).
    apply preserves_indexing_persist; intros ? ?; reflexivity.
Qed.

(** The identifier claim C4 at the level of [indexing]: two calls in a
    row, the second without deleting the index, the first id not 0 (the
    one value that makes the second call read the counter back from the
    store). *)
Lemma indexing_twice_ids path1 path2 es_index data_path1 data_path2
    query1 query2 save1 save2 mode1 mode2 delete_old
    (self self1 self2 : IndexBuilder ES FS) m1 m2 :
  indexing im os Utils basic_profiler path1 es_index data_path1 query1
    save1 mode1 delete_old self = (Ok m1, self1) ->
  indexing im os Utils basic_profiler path2 es_index data_path2 query2
    save2 mode2 false self1 = (Ok m2, self2) ->
  datamart_id m1 <> 0 ->
  datamart_id m2 = datamart_id m1 + self_GLOBAL_INDEX_INTERVAL self.
Proof.
  intros H1 H2 Hnz.
  apply indexing_inv in H1
    as (d1 & data1 & a1 & b1 & _ & Hi1 & Hc1 & Hk1 & Hj1).
  apply indexing_inv in H2
    as (d2 & data2 & a2 & b2 & Hk2 & Hi2 & Hc2 & _ & _).
  apply construct_global_metadata_fresh in Hc1 as (c1 & _ & _ & Hs1 & Hint1).
  apply construct_global_metadata_fresh in Hc2 as (c2 & Hcount & Hm2 & _ & _).
  rewrite <- Hk1 in Hs1.
  rewrite indexing_read_keeps_counter in Hk2.
  - rewrite Hk2, Hs1 in Hcount. injection Hcount as <-.
    rewrite Hm2, Hi2, Hj1, Hint1, Hi1. reflexivity.
  - rewrite Hs1. simpl. unfold truthy_int.
    now apply negb_true_iff, Z.eqb_neq.
Qed.

End Indexing.

(** ** The claims about [Augment] *)

Section AugmentClaims.
Context {Q float : Type}.
Variable qm : QueryManager Q float.
Variable support : JoinSupport.

(** C5.  [query] with no criterion compiles to the match-everything
    query: it is [_query_all], the search for [match_all].  The same
    holds when the criteria are given but empty (empty strings, zero
    ids, an empty pair list). *)
Theorem C5_no_criterion_matches_all ratio kw :
  query qm None ratio None None None None None None kw
    = _query_all qm [] /\
  _query_all qm [] = search qm (match_all qm) [] /\
  query qm None ratio (Some "") (Some "") (Some "") (Some 0) (Some 0)
    (Some []) kw = search qm (match_all qm) [].
Proof. repeat split. Qed.

(** [join] keeps the cache as [prepare_joiner] filled it. *)
Lemma join_keeps_joiners_prepared left_df right_df left_columns
    right_columns left_metadata right_metadata joiner self :
  joiners_prepared support self ->
  joiners_prepared support
    (snd (join support left_df right_df left_columns right_columns
            left_metadata right_metadata joiner self)).
Proof.
  intros Hinv. unfold join, bind, get. simpl.
  destruct (joiners self !! joiner) as [cached|] eqn:Hcached; simpl.
  - rewrite Hcached.
    destruct cached as [j|]; simpl; [|exact Hinv].
    destruct left_metadata as [m|]; unfold lift, ret; simpl.
    + destruct (calculate_dsbox_features _ _ _); simpl; [|exact Hinv].
      destruct (calculate_dsbox_features _ _ _); simpl; exact Hinv.
    + destruct (generate_metadata_from_dataframe _ _); simpl; [|exact Hinv].
      destruct (calculate_dsbox_features _ _ _); simpl; [|exact Hinv].
      destruct (calculate_dsbox_features _ _ _); simpl; exact Hinv.
  - unfold lift.
    destruct (prepare_joiner support joiner) as [prepared|e] eqn:Hprep;
      simpl; [|exact Hinv].
    assert (Hinv' : joiners_prepared support (set_joiner joiner prepared self)).
    { intros name j. simpl. destruct (decide (joiner = name)) as [<-|Hne].
      - rewrite lookup_insert_eq. intros [= <-]. exact Hprep.
      - rewrite lookup_insert_ne by exact Hne. apply Hinv. }
    rewrite lookup_insert_eq.
    destruct prepared as [j|]; simpl; [|exact Hinv'].
    destruct left_metadata as [m|]; unfold ret; simpl.
    + destruct (calculate_dsbox_features _ _ _); simpl; [|exact Hinv'].
      destruct (calculate_dsbox_features _ _ _); simpl; exact Hinv'.
    + destruct (generate_metadata_from_dataframe _ _); simpl; [|exact Hinv'].
      destruct (calculate_dsbox_features _ _ _); simpl; [|exact Hinv'].
      destruct (calculate_dsbox_features _ _ _); simpl; exact Hinv'.
Qed.

(** C6.  [join] under a name for which [prepare_joiner] has no joiner
    issues the warning and returns the left table as it is; it does not
    raise.  The cache remembers the missing joiner. *)
Theorem C6_unknown_joiner_returns_left left_df right_df left_columns
    right_columns left_metadata right_metadata joiner self :
  joiners_prepared support self ->
  prepare_joiner support joiner = Ok None ->
  join support left_df right_df left_columns right_columns left_metadata
    right_metadata joiner self
  = (Ok (Some left_df),
     {| joiners := <[joiner := None]> (joiners self);
        warnings := warnings self
                    ++ [Warn "No suitable joiner, return original dataframe"]
     |}).
Proof.
  intros Hinv Hnone. unfold join, bind, get. simpl.
  destruct (joiners self !! joiner) as [cached|] eqn:Hcached; simpl.
  - pose proof (Hinv _ _ Hcached) as Hc. rewrite Hnone in Hc.
    injection Hc as <-. rewrite Hcached. simpl.
    rewrite (insert_id _ _ _ Hcached). reflexivity.
  - unfold lift. rewrite Hnone. simpl. rewrite lookup_insert_eq. reflexivity.
Qed.

(** C7.  [join] under a name that resolves to a joiner: once the
    metadata of both sides is ready, an exception raised by the joiner's
    own [join] is the outcome of [Augment.join], as it was raised; no
    warning stands in for it. *)
Theorem C7_joiner_exception_propagates left_df right_df left_columns
    right_columns left_metadata right_metadata joiner self
    the_joiner generated left_features right_features e :
  joiners self !! joiner = Some (Some the_joiner) \/
  (joiners self !! joiner = None /\
   prepare_joiner support joiner = Ok (Some the_joiner)) ->
  match left_metadata with
  | Some m => Ok m
  | None => generate_metadata_from_dataframe support left_df
  end = Ok generated ->
  calculate_dsbox_features support left_df (Some generated)
    = Ok left_features ->
  calculate_dsbox_features support right_df right_metadata
    = Ok right_features ->
  joiner_join the_joiner left_df right_df left_columns right_columns
    left_features right_features = Raise e ->
  let r := join support left_df right_df left_columns right_columns
             left_metadata right_metadata joiner self in
  fst r = Raise e /\ warnings (snd r) = warnings self.
Proof.
  intros Hresolved Hgen Hleft Hright Hjoin r. subst r.
  unfold join, bind, get. simpl.
  destruct Hresolved as [Hcached|[Hcached Hprep]]; rewrite Hcached; simpl.
  - rewrite Hcached.
    destruct left_metadata as [m|]; unfold lift, ret; simpl;
      [injection Hgen as ->|rewrite Hgen; simpl];
      rewrite Hleft; simpl; rewrite Hright; simpl; rewrite Hjoin; auto.
  - unfold lift. rewrite Hprep. simpl. rewrite lookup_insert_eq.
    destruct left_metadata as [m|]; unfold ret; simpl;
      [injection Hgen as ->|rewrite Hgen; simpl];
      rewrite Hleft; simpl; rewrite Hright; simpl; rewrite Hjoin; auto.
Qed.

End AugmentClaims.

(** ** The claims at concrete inputs *)

Module Runs.
Import Sample.

(** C1, as stated, fails.  The directory lists a good description, one
    without a title, and a third, good one.  [bulk_indexing] indexes the
    first, raises on the second and never reaches the third: its
    document is not in the index.  Taken on its own the third is indexed
    without error, and the batch that skips failing records does index
    it. *)
Lemma C1_counterexample :
  let run := bulk_indexing im os Utils basic_profiler "descs" "idx" None
               false None "a+" false fresh in
  let independent :=
    bulk_indexing_independent im os Utils basic_profiler "descs" "idx" None
      false None "a+" false fresh in
  fst run = Raise missing_title /\
  docs_of "idx" (es (snd run)) !! 10000 = Some (cities_metadata 10000) /\
  docs_of "idx" (es (snd run)) !! 20000 = None /\
  (Print "==== Creating metadata and indexing for descs/d_description.json"
     ∉ stdout (snd run)) /\
  fst (indexing im os Utils basic_profiler "descs/d_description.json" "idx"
         None false None "a+" false (snd run)) = Ok (towns_metadata 20000) /\
  fst independent = Ok tt /\
  docs_of "idx" (es (snd independent)) !! 20000 = Some (towns_metadata 20000).
Proof.
  vm_compute. repeat split; try reflexivity.
  intros H. repeat (apply elem_of_cons in H as [H|H]; [discriminate H|]).
  apply elem_of_nil in H. exact H.
Qed.

(** C1, as the code has it, on the same batch: one record before the
    failing one, one after. *)
Lemma C1_batch_stops_at_first_failure_witness :
  let s0 := snd (_check_es_index im "idx" false fresh) in
  let step := bulk_indexing_step im os Utils basic_profiler "descs" "idx"
                None false None "a+" in
  let s1 := snd (step "b_description.json" s0) in
  bulk_indexing im os Utils basic_profiler "descs" "idx" None false None
    "a+" false fresh
  = (Raise missing_title, snd (step "a_description.json" s1)).
Proof.
  intros s0 step s1.
  apply (C1_batch_stops_at_first_failure im os Utils basic_profiler
           "descs" "idx" None false None "a+" false fresh s0 s1
           (snd (step "a_description.json" s1))
           ["b_description.json"] "a_description.json"
           ["d_description.json"] missing_title);
    vm_compute; reflexivity.
Defined.

(** C2, as stated, fails: an empty [data_path] is not [None], yet the
    call reads no data and completes. *)
Lemma C2_counterexample :
  Some "" <> (None : option string) /\
  fst (indexing im os Utils basic_profiler "descs/b_description.json" "idx"
         (Some "") false None "a+" false fresh)
  = Ok (cities_metadata 10000).
Proof. split; [discriminate|vm_compute; reflexivity]. Qed.

(** C2, as the code has it, where the data file exists and is read. *)
Lemma C2_data_path_never_completes_witness :
  fst (indexing im os Utils basic_profiler "descs/b_description.json" "idx"
         (Some "data/b.csv") false None "a+" false fresh)
  = Raise (ValueError "The truth value of a DataFrame is ambiguous") /\
  fst (updating im os Utils basic_profiler "descs/b_description.json" "idx"
         7 (Some "data/b.csv") false fresh)
  = Raise (ValueError "The truth value of a DataFrame is ambiguous").
Proof.
  destruct (C2_data_path_never_completes im os Utils basic_profiler
              "descs/b_description.json" "idx" "data/b.csv" false None "a+"
              false 7 fresh eq_refl) as [[Hi _] [Hu _]].
  split; [rewrite Hi|rewrite Hu]; reflexivity.
Defined.

(** C3 on the scenario of one column holding NY, LA, NY. *)
Lemma C3_column_ids_witness :
  length (variables (cities_profiled 10000)) = 1%nat /\
  map v_datamart_id (variables (cities_profiled 10000)) = [10001] /\
  (forall (i : nat) v,
     variables (cities_profiled 10000) !! i = Some v ->
     v_datamart_id v = Z.of_nat i + 10000 + 1).
Proof.
  exact (C3_column_ids basic_profiler cities (Some city_data) None synced
           (set_current_global_index (Some 10000) synced)
           (cities_profiled 10000) eq_refl).
Defined.

(** C4: the same description indexed twice. *)
Lemma C4_successive_ids_witness :
  datamart_id (cities_metadata 20000)
    = datamart_id (cities_metadata 10000) + 10000 /\
  datamart_id (cities_metadata 10000) <> datamart_id (cities_metadata 20000) /\
  datamart_id (cities_metadata 10000) < datamart_id (cities_metadata 20000) /\
  current_global_index (set_current_global_index (Some 10000) synced)
    = Some 10000 /\
  current_global_index (set_current_global_index (Some 20000) synced)
    = Some 20000.
Proof.
  apply (C4_successive_ids basic_profiler cities None cities None synced
           (set_current_global_index (Some 10000) synced)
           (set_current_global_index (Some 20000) synced)
           (cities_metadata 10000) (cities_metadata 20000));
    [vm_compute; reflexivity|reflexivity|reflexivity].
Defined.

(** C8: the materializer of the sample world always fails. *)
Lemma C8_materialization_failure_is_not_fatal_witness :
  fst (indexing im os Utils basic_profiler "descs/b_description.json" "idx"
         None true None "a+" false fresh) = Ok (cities_metadata 10000) /\
  Warn "Materialization Failed, index based on schema json only"
    ∈ stdout (snd (indexing im os Utils basic_profiler
                     "descs/b_description.json" "idx" None true None "a+"
                     false fresh)).
Proof.
  destruct (C8_materialization_failure_is_not_fatal im os Utils
              basic_profiler "descs/b_description.json" "idx" None "a+"
              false fresh
              (snd (indexing_read im os Utils "descs/b_description.json"
                      "idx" None false fresh))
              cities None (ConnectionError "materializer unreachable")
              eq_refl eq_refl) as (_ & H & _).
  rewrite H. split; [reflexivity|].
  vm_compute. do 2 (apply elem_of_cons; right). apply elem_of_cons. left.
  reflexivity.
Defined.

(** C9: a description that passes validation while the metadata built
    from it does not. *)
Lemma C9_validation_before_persistence_witness :
  let s1 := snd (indexing_build im os Utils basic_profiler
                   "other/c_description.json" "idx" None false false fresh) in
  indexing im os Utils basic_profiler "other/c_description.json" "idx" None
    false (Some "out.jl") "a+" false fresh
  = (Raise (ValidationError "title is not allowed"), s1) /\
  fs s1 = fs fresh /\
  es s1 = es (snd (_check_es_index im "idx" false fresh)).
Proof.
  intros s1.
  apply (C9_validation_before_persistence im os Utils basic_profiler
           "other/c_description.json" "idx" None false (Some "out.jl") "a+"
           false fresh s1
           {| datamart_id := 10000; g_title := Some "forbidden";
              g_description := None; g_temporal_coverage := None;
              variables := []; g_stats := None |});
    reflexivity.
Defined.


Lemma Augment_init_prepared : joiners_prepared support Augment_init.
Proof. intros name j H. simpl in H. rewrite lookup_empty in H. discriminate. Qed.

(** C6: no joiner goes by the name fuzzy. *)
Lemma C6_unknown_joiner_returns_left_witness :
  join support city_data [] [[0]] [[0]] None None "fuzzy" Augment_init
  = (Ok (Some city_data),
     {| joiners := <["fuzzy" := None]> ∅;
        warnings := [Warn "No suitable joiner, return original dataframe"] |}).
Proof.
  exact (C6_unknown_joiner_returns_left support city_data [] [[0]] [[0]]
           None None "fuzzy" Augment_init Augment_init_prepared eq_refl).
Defined.

(** C7: the joiner registered as default raises. *)
Lemma C7_joiner_exception_propagates_witness :
  let r := join support city_data city_data [[0]] [[0]] None None "default"
             Augment_init in
  fst r = Raise (RuntimeError "join failed") /\ warnings (snd r) = [].
Proof.
  apply (C7_joiner_exception_propagates support city_data city_data [[0]]
           [[0]] None None "default" Augment_init broken_joiner
           (construct_global untitled 0) (construct_global untitled 0)
           (construct_global untitled 0));
    [right; split; reflexivity|reflexivity..].
Defined.

End Runs.

(** * Further properties of the code *)

(** ** The index builder: identifiers and what reaches the store *)

Section BuilderProperties.
Context {ES FS : Type}.
Variable im : IndexManager ES.
Variable os : FileSystem FS.
Variable Utils : UtilsT.
Variable basic_profiler : BasicProfiler.

Lemma on_es_inv {A} (m : M ES A) (s s' : IndexBuilder ES FS) r :
  on_es m s = (r, s') -> m (es s) = (r, es s') /\ s' = set_es (es s') s.
Proof.
  unfold on_es. destruct (m (es s)) as [r0 e]. intros H.
  injection H as -> <-. auto.
Qed.

(** What a successful [indexing] went through, phase by phase. *)
Lemma indexing_inv_phases description_path es_index data_path query_data
    save_to_file save_to_file_mode delete_old_es_index
    (self self' : IndexBuilder ES FS) m :
  indexing im os Utils basic_profiler description_path es_index data_path
    query_data save_to_file save_to_file_mode delete_old_es_index self
    = (Ok m, self') ->
  exists read sa data sb sc,
    indexing_read im os Utils description_path es_index data_path
      delete_old_es_index self = (Ok read, sa) /\
    materialize_if_asked Utils (fst read) (snd read) query_data sa
      = (Ok data, sb) /\
    construct_global_metadata basic_profiler (fst read) data None sb
      = (Ok m, sc) /\
    indexing_persist im os Utils es_index save_to_file save_to_file_mode m sc
      = (Ok m, self').
Proof.
  intros H. rewrite indexing_phases in H.
  apply bind_inv_Ok in H as (read & sa & Hread & H).
  apply bind_inv_Ok in H as (data & sb & Hmat & H).
  unfold indexing_from in H.
  apply bind_inv_Ok in H as (m0 & sc & Hcons & H).
  assert (Hp : profiled data m0 = m0) by now destruct data.
  rewrite Hp in H.
  assert (Hm : m = m0).
  { pose proof H as H'. unfold indexing_persist in H'.
    apply bind_inv_Ok in H' as (u1 & t1 & _ & H').
    apply bind_inv_Ok in H' as (u2 & t2 & _ & H').
    apply bind_inv_Ok in H' as (u3 & t3 & _ & H').
    unfold ret in H'. now injection H' as <- _. }
  subst m0. exists read, sa, data, sb, sc. auto.
Qed.

(** What a successful [updating] went through. *)
Lemma updating_inv_phases description_path es_index document_id data_path
    query_data (self self' : IndexBuilder ES FS) m :
  updating im os Utils basic_profiler description_path es_index document_id
    data_path query_data self = (Ok m, self') ->
  exists read sa data sb sc,
    updating_read im os Utils description_path es_index data_path self
      = (Ok read, sa) /\
    materialize_if_asked Utils (fst read) (snd read) query_data sa
      = (Ok data, sb) /\
    construct_global_metadata basic_profiler (fst read) data
      (Some document_id) sb = (Ok m, sc) /\
    on_es (update_doc im es_index "document" m (datamart_id m)) sc
      = (Ok tt, self').
Proof.
  intros H. rewrite updating_phases in H.
  apply bind_inv_Ok in H as (read & sa & Hread & H).
  apply bind_inv_Ok in H as (data & sb & Hmat & H).
  unfold updating_from in H.
  apply bind_inv_Ok in H as (m0 & sc & Hcons & H).
  apply bind_inv_Ok in H as (u1 & t1 & Hval & H).
  apply lift_inv_Ok in Hval as [_ ->].
  apply bind_inv_Ok in H as ([] & t2 & Hdoc & H).
  unfold ret in H. injection H as <- <-.
  exists read, sa, data, sb, sc. auto.
Qed.

Lemma allocator_eq (s s' : IndexBuilder ES FS) :
  allocator s = allocator s' ->
  current_global_index s = current_global_index s' /\
  self_GLOBAL_INDEX_INTERVAL s = self_GLOBAL_INDEX_INTERVAL s'.
Proof. unfold allocator. intros H. now injection H. Qed.

(** Reading, and materializing, leave the counter and the interval
    alone in [updating]. *)
Lemma updating_read_allocator description_path es_index data_path query_data
    (self sa sb : IndexBuilder ES FS) read data :
  updating_read im os Utils description_path es_index data_path self
    = (Ok read, sa) ->
  materialize_if_asked Utils (fst read) (snd read) query_data sa
    = (Ok data, sb) ->
  allocator sb = allocator self.
Proof.
  intros Hread Hmat.
  rewrite (preserves_run allocator _ _ _ _
             (preserves_materialize_if_asked Utils allocator _ _ _
                (fun _ _ => eq_refl)) Hmat).
  exact (preserves_run allocator _ _ _ _
           (preserves_updating_read im os Utils allocator _ _ _
              (fun _ _ => eq_refl)) Hread).
Qed.

(** [updating] with a document id other than 0 builds the metadata under
    that id, numbers the columns from it, and leaves the counter as it
    was: it needs no synchronized counter. *)
Theorem updating_keeps_document_id description_path es_index document_id
    data_path query_data (self self' : IndexBuilder ES FS) m :
  document_id <> 0 ->
  updating im os Utils basic_profiler description_path es_index document_id
    data_path query_data self = (Ok m, self') ->
  datamart_id m = document_id /\
  map v_datamart_id (variables m)
    = map (fun i => Z.of_nat i + document_id + 1)
        (seq 0 (length (variables m))) /\
  current_global_index self' = current_global_index self.
Proof.
  intros Hnz H.
  apply updating_inv_phases in H
    as (read & sa & data & sb & sc & Hread & Hmat & Hcons & Hdoc).
  destruct (allocator_eq _ _
              (updating_read_allocator _ _ _ _ _ _ _ _ _ Hread Hmat))
    as [Hc _].
  apply construct_global_metadata_inv in Hcons as [(s1 & Hid & Hsame) Hvars].
  assert (Htruthy : truthy_opt_int (Some document_id) = true).
  { simpl. unfold truthy_int. now apply negb_true_iff, Z.eqb_neq. }
  rewrite Htruthy in Hid. simpl in Hid. unfold ret in Hid.
  injection Hid as Hid <-.
  destruct Hsame as (Hcount & _).
  split; [now symmetry|]. split.
  - rewrite Hvars at 1. rewrite <- Hid.
    rewrite <- (length_map v_datamart_id (variables m)), Hvars, length_map,
      length_seq. reflexivity.
  - rewrite (preserves_run current_global_index _ _ _ _
               (preserves_on_es current_global_index _ (fun _ _ => eq_refl))
               Hdoc).
    congruence.
Qed.

(** Where the read phase of [indexing] takes the counter from the store:
    the counter is unset or 0, or the old index is to be deleted. *)
Lemma indexing_read_sync description_path es_index data_path delete_old
    (self sa : IndexBuilder ES FS) read :
  truthy_opt_int (current_global_index self) = false \/ delete_old = true ->
  indexing_read im os Utils description_path es_index data_path delete_old
    self = (Ok read, sa) ->
  exists c,
    current_global_datamart_id im es_index
      (es (snd (_check_es_index im es_index delete_old self))) = Ok c /\
    current_global_index sa = Some c.
Proof.
  intros Hcond H. unfold indexing_read in H.
  apply bind_inv_Ok in H as (u1 & t1 & Hprint & H).
  apply bind_inv_Ok in H as (u2 & t2 & Hcheck & H).
  apply bind_inv_Ok in H as (self0 & t3 & Hget & H).
  apply bind_inv_Ok in H as (u4 & t4 & Hsync & H).
  unfold print, modify in Hprint. injection Hprint as _ <-.
  unfold get in Hget. injection Hget as <- <-.
  assert (Hcount : current_global_index t2 = current_global_index self).
  { exact (preserves_run current_global_index _ _ _ _
             (preserves_check_es_index im current_global_index _ _
                (fun _ _ => eq_refl)) Hcheck). }
  assert (Hes : es t2 = es (snd (_check_es_index im es_index delete_old self))).
  { rewrite <- (check_es_index_es im es_index delete_old
                  (emit (Print ("==== Creating metadata and indexing for "
                                +:+ description_path)) self) self eq_refl).
    now rewrite Hcheck. }
  assert (Hgo : negb (truthy_opt_int (current_global_index t2)) || delete_old
                = true).
  { rewrite Hcount. destruct Hcond as [-> | ->]; [reflexivity|].
    apply orb_true_r. }
  rewrite Hgo in Hsync.
  apply bind_inv_Ok in Hsync as (c & t5 & Hcur & Hset).
  unfold ask_es, observe in Hcur.
  destruct (current_global_datamart_id im es_index (es t2)) as [c0|e] eqn:Hc;
    [|discriminate].
  injection Hcur as -> <-.
  unfold modify in Hset. injection Hset as _ <-.
  exists c. split; [now rewrite <- Hes|].
  exact (preserves_run current_global_index _ _ _ _
           (preserves_read_data os Utils current_global_index _ _) H).
Qed.

(** [indexing] on a builder whose counter is unset (or 0), or asked to
    delete the old index, takes the counter from the store after the
    index check: the id it assigns is the store's current id plus the
    interval, whatever the counter held before. *)
Theorem indexing_resynchronizes description_path es_index data_path
    query_data save_to_file save_to_file_mode delete_old_es_index
    (self self' : IndexBuilder ES FS) m :
  truthy_opt_int (current_global_index self) = false
  \/ delete_old_es_index = true ->
  indexing im os Utils basic_profiler description_path es_index data_path
    query_data save_to_file save_to_file_mode delete_old_es_index self
    = (Ok m, self') ->
  exists c,
    current_global_datamart_id im es_index
      (es (snd (_check_es_index im es_index delete_old_es_index self)))
      = Ok c /\
    datamart_id m = c + self_GLOBAL_INDEX_INTERVAL self.
Proof.
  intros Hcond H.
  apply indexing_inv_phases in H
    as (read & sa & data & sb & sc & Hread & Hmat & Hcons & _).
  destruct (indexing_read_sync _ _ _ _ _ _ _ Hcond Hread) as (c & Hc & Hsa).
  apply construct_global_metadata_fresh in Hcons as (c' & Hc' & Hm & _ & _).
  assert (Hb : allocator sb = allocator sa).
  { exact (preserves_run allocator _ _ _ _
             (preserves_materialize_if_asked Utils allocator _ _ _
                (fun _ _ => eq_refl)) Hmat). }
  apply allocator_eq in Hb as [Hb1 Hb2].
  assert (Hi : self_GLOBAL_INDEX_INTERVAL sa = self_GLOBAL_INDEX_INTERVAL self).
  { exact (preserves_run self_GLOBAL_INDEX_INTERVAL _ _ _ _
             (preserves_indexing_read im os Utils self_GLOBAL_INDEX_INTERVAL
                _ _ _ _ (fun _ _ => eq_refl) (fun _ _ => eq_refl)
                (fun _ _ => eq_refl)) Hread). }
  exists c. split; [exact Hc|].
  rewrite Hm, Hb2, Hi. f_equal. congruence.
Qed.

(** When [indexing] returns, the store has been handed the returned
    metadata under its own [datamart_id], on the cluster as the index
    check left it, and the counter stands at that id. *)
Theorem indexing_stores_what_it_returns description_path es_index data_path
    query_data save_to_file save_to_file_mode delete_old_es_index
    (self self' : IndexBuilder ES FS) m :
  indexing im os Utils basic_profiler description_path es_index data_path
    query_data save_to_file save_to_file_mode delete_old_es_index self
    = (Ok m, self') ->
  create_doc im es_index "_doc" m (datamart_id m)
    (es (snd (_check_es_index im es_index delete_old_es_index self)))
    = (Ok tt, es self') /\
  current_global_index self' = Some (datamart_id m).
Proof.
  intros H.
  apply indexing_inv_phases in H
    as (read & sa & data & sb & sc & Hread & Hmat & Hcons & Hpersist).
  assert (Hes : es sc
                = es (snd (_check_es_index im es_index delete_old_es_index
                             self))).
  { rewrite <- (indexing_read_es im os Utils description_path es_index
                  data_path delete_old_es_index self), Hread. simpl.
    rewrite (preserves_run es _ _ _ _
               (preserves_construct_global_metadata basic_profiler es _ _ _
                  (fun _ _ => eq_refl) (fun _ _ => eq_refl)) Hcons).
    exact (preserves_run es _ _ _ _
             (preserves_materialize_if_asked Utils es _ _ _
                (fun _ _ => eq_refl)) Hmat). }
  apply construct_global_metadata_fresh in Hcons as (c & _ & _ & Hcount & _).
  unfold indexing_persist in Hpersist.
  apply bind_inv_Ok in Hpersist as (u1 & t1 & Hval & Hpersist).
  apply lift_inv_Ok in Hval as [_ ->].
  apply bind_inv_Ok in Hpersist as (u2 & t2 & Hsave & Hpersist).
  apply bind_inv_Ok in Hpersist as ([] & t3 & Hdoc & Hpersist).
  unfold ret in Hpersist. injection Hpersist as <-.
  assert (Hsaved : es t2 = es sc /\
                   current_global_index t2 = current_global_index sc).
  { destruct save_to_file as [path|];
      [destruct (truthy_str path)|]; unfold ret in Hsave;
      try (injection Hsave as _ <-; auto).
    split.
    - exact (preserves_run es _ _ _ _
               (preserves_save_data os Utils es _ _ _ (fun _ _ => eq_refl))
               Hsave).
    - exact (preserves_run current_global_index _ _ _ _
               (preserves_save_data os Utils current_global_index _ _ _
                  (fun _ _ => eq_refl)) Hsave). }
  destruct Hsaved as [Hes2 Hc2].
  split.
  - apply on_es_inv in Hdoc as [Hdoc _]. now rewrite <- Hes, <- Hes2.
  - rewrite (preserves_run current_global_index _ _ _ _
               (preserves_on_es current_global_index _ (fun _ _ => eq_refl))
               Hdoc).
    congruence.
Qed.

(** An id, once taken, is not given back: when the counter is set,
    [construct_global_metadata] without an overwrite id (or with 0) moves
    it on by the interval whether the construction then returns or
    raises. *)
Theorem construct_global_metadata_advances d data
    (self : IndexBuilder ES FS) c :
  current_global_index self = Some c ->
  current_global_index
    (snd (construct_global_metadata basic_profiler d data None self))
    = Some (c + self_GLOBAL_INDEX_INTERVAL self) /\
  current_global_index
    (snd (construct_global_metadata basic_profiler d data (Some 0) self))
    = Some (c + self_GLOBAL_INDEX_INTERVAL self).
Proof.
  intros Hc.
  assert (H : current_global_index
                (snd (construct_global_metadata basic_profiler d data None
                        self))
              = Some (c + self_GLOBAL_INDEX_INTERVAL self)).
  { unfold construct_global_metadata. simpl negb. cbv iota.
    rewrite preserves_tail.
    - unfold advance_global_index, bind, get. simpl. rewrite Hc. reflexivity.
    - intros D. apply preserves_bind.
      + destruct (d_variables d) as [[|v vs]|], data as [df|];
          try apply preserves_lift;
          (apply preserves_bind; [|intros ?; apply preserves_ret]);
          apply preserves_modify; reflexivity.
      + intros g. destruct data; [apply preserves_lift|apply preserves_ret]. }
  split; exact H.
Qed.

(** A builder whose counter has never been set cannot allocate:
    [construct_global_metadata] without an overwrite id (or with 0) raises
    [TypeError] and changes nothing, and [updating] with document id 0
    does not return. *)
Theorem unset_counter_cannot_allocate d data (self : IndexBuilder ES FS) :
  current_global_index self = None ->
  let unset :=
    TypeError "unsupported operand type(s) for +=: 'NoneType' and 'int'" in
  construct_global_metadata basic_profiler d data None self
    = (Raise unset, self) /\
  construct_global_metadata basic_profiler d data (Some 0) self
    = (Raise unset, self) /\
  (forall description_path es_index data_path query_data,
     exists e,
       fst (updating im os Utils basic_profiler description_path es_index 0
              data_path query_data self) = Raise e).
Proof.
  intros Hnone unset.
  assert (H : construct_global_metadata basic_profiler d data None self
              = (Raise unset, self)).
  { unfold construct_global_metadata. simpl negb. cbv iota.
    apply bind_Raise. unfold advance_global_index, bind, get. simpl.
    rewrite Hnone. reflexivity. }
  split; [exact H|]. split; [exact H|].
  intros description_path es_index data_path query_data.
  destruct (updating im os Utils basic_profiler description_path es_index 0
              data_path query_data self) as [[m|e] s'] eqn:Hup.
  - exfalso.
    apply updating_inv_phases in Hup
      as (read & sa & data' & sb & sc & Hread & Hmat & Hcons & _).
    destruct (allocator_eq _ _
                (updating_read_allocator _ _ _ _ _ _ _ _ _ Hread Hmat))
      as [Hc _].
    change (construct_global_metadata basic_profiler (fst read) data' None sb
            = (Ok m, sc)) in Hcons.
    apply construct_global_metadata_fresh in Hcons as (c & Hsome & _).
    congruence.
  - now exists e.
Qed.

End BuilderProperties.

(** ** The index builder: the mirror file, the batch, the materializer *)

Section PersistenceProperties.
Context {ES FS : Type}.
Variable im : IndexManager ES.
Variable os : FileSystem FS.
Variable Utils : UtilsT.
Variable basic_profiler : BasicProfiler.

(** The mirror file comes before the store and is not taken back: when
    the record has been written to the mirror file and [create_doc] then
    raises, [indexing] raises that exception with the file system as
    [_save_data] left it. *)
Theorem mirror_is_written_before_the_store description_path es_index
    data_path query_data path save_to_file_mode delete_old_es_index
    (self s1 s2 : IndexBuilder ES FS) m e e' :
  indexing_build im os Utils basic_profiler description_path es_index
    data_path query_data delete_old_es_index self = (Ok m, s1) ->
  validate_schema Utils (MetadataDoc m) = Ok tt ->
  truthy_str path = true ->
  _save_data os Utils path save_to_file_mode m s1 = (Ok tt, s2) ->
  create_doc im es_index "_doc" m (datamart_id m) (es s2) = (Raise e, e') ->
  indexing im os Utils basic_profiler description_path es_index data_path
    query_data (Some path) save_to_file_mode delete_old_es_index self
    = (Raise e, set_es e' s2) /\
  fs (set_es e' s2) = fs s2.
Proof.
  intros Hbuild Hval Hpath Hsave Hdoc. split; [|reflexivity].
  rewrite indexing_build_persist, (bind_Ok _ _ _ _ _ Hbuild).
  unfold indexing_persist.
  rewrite (bind_Ok _ _ s1 tt s1); [|unfold lift; now rewrite Hval].
  rewrite Hpath, (bind_Ok _ _ _ _ _ Hsave).
  apply bind_Raise. unfold on_es. now rewrite Hdoc.
Qed.

(** A metadata document that [json.dumps] refuses leaves a dangling id
    line: [_save_data] has opened the mirror file and written the id and
    the line break before it serializes, so [indexing] raises with these
    two writes done and nothing sent to the store. *)
Theorem unserializable_metadata_leaves_id_line description_path es_index
    data_path query_data path save_to_file_mode delete_old_es_index
    (self s1 : IndexBuilder ES FS) m e f1 f2 f3 :
  indexing_build im os Utils basic_profiler description_path es_index
    data_path query_data delete_old_es_index self = (Ok m, s1) ->
  validate_schema Utils (MetadataDoc m) = Ok tt ->
  truthy_str path = true ->
  open_file os path save_to_file_mode (fs s1) = (Ok tt, f1) ->
  write_file os path (py_str_int (datamart_id m)) f1 = (Ok tt, f2) ->
  write_file os path newline f2 = (Ok tt, f3) ->
  json_dumps Utils m = Raise e ->
  indexing im os Utils basic_profiler description_path es_index data_path
    query_data (Some path) save_to_file_mode delete_old_es_index self
    = (Raise e, set_fs f3 s1) /\
  es (set_fs f3 s1) = es s1.
Proof.
  intros Hbuild Hval Hpath Hopen Hid Hnl Hdumps. split; [|reflexivity].
  rewrite indexing_build_persist, (bind_Ok _ _ _ _ _ Hbuild).
  unfold indexing_persist.
  rewrite (bind_Ok _ _ s1 tt s1); [|unfold lift; now rewrite Hval].
  rewrite Hpath. apply bind_Raise. unfold _save_data.
  rewrite (bind_Ok _ _ s1 tt (set_fs f1 s1));
    [|unfold on_fs; now rewrite Hopen].
  rewrite (bind_Ok _ _ _ tt (set_fs f2 s1));
    [|unfold on_fs; simpl; now rewrite Hid].
  rewrite (bind_Ok _ _ _ tt (set_fs f3 s1));
    [|unfold on_fs; simpl; now rewrite Hnl].
  apply bind_Raise. unfold lift. now rewrite Hdumps.
Qed.



(** A column loop that returns has found every offset in the data. *)
Lemma for_fold_add_column_in_range D df cols g g' :
  for_fold cols (add_column basic_profiler D (Some df)) g = Ok g' ->
  Forall (fun col : nat * variable_description =>
            (fst col < shape1 df)%nat) cols.
Proof.
  revert g. induction cols as [|col cols IH]; intros g H; simpl in H.
  - constructor.
  - destruct (add_column basic_profiler D (Some df) col g) as [g1|e] eqn:Hcol;
      [|discriminate].
    constructor; [|now apply IH in H].
    unfold add_column, construct_variable_metadata, iloc_col in Hcol.
    destruct (df !! fst col) as [column|] eqn:Hlook; [|discriminate].
    apply lookup_lt_Some in Hlook. exact Hlook.
Qed.

Lemma enumerate_fst {A} (l : list A) n :
  map fst (combine (seq n (length l)) l) = seq n (length l).
Proof.
  revert n. induction l as [|x l IH]; intros n; simpl; [reflexivity|].
  now rewrite IH.
Qed.

Lemma enumerate_in_range {A} (l : list A) k :
  Forall (fun col : nat * A => (fst col < k)%nat) (enumerate l) ->
  (length l <= k)%nat.
Proof.
  intros H.
  assert (Hseq : Forall (fun i => (i < k)%nat) (seq 0 (length l))).
  { rewrite <- (enumerate_fst l 0). apply Forall_fmap. exact H. }
  rewrite Forall_seq in Hseq.
  destruct (length l) as [|n]; [lia|].
  specialize (Hseq n). lia.
Qed.

(** A description that declares more variables than the data has columns
    cannot be turned into metadata: [construct_global_metadata] raises. *)
Theorem more_variables_than_columns_raises d df vs overwrite
    (self : IndexBuilder ES FS) :
  d_variables d = Some vs ->
  (shape1 df < length vs)%nat ->
  exists e,
    fst (construct_global_metadata basic_profiler d (Some df) overwrite self)
    = Raise e.
Proof.
  intros Hvs Hlen.
  destruct (construct_global_metadata basic_profiler d (Some df) overwrite
              self) as [[m|e] s'] eqn:H; [exfalso|now exists e].
  unfold construct_global_metadata in H.
  apply bind_inv_Ok in H as (D & s1 & _ & H).
  apply bind_inv_Ok in H as (g & s2 & Hloop & _).
  rewrite Hvs in Hloop.
  destruct vs as [|v vs]; [simpl in Hlen; lia|].
  apply lift_inv_Ok in Hloop as [Hloop _].
  apply for_fold_add_column_in_range, enumerate_in_range in Hloop.
  lia.
Qed.

(** A name that does not end in [.json] costs the batch nothing. *)
Lemma bulk_indexing_step_skips description_dir es_index data_dir query_data
    save_to_file save_to_file_mode name (s : IndexBuilder ES FS) :
  is_json name = false ->
  bulk_indexing_step im os Utils basic_profiler description_dir es_index
    data_dir query_data save_to_file save_to_file_mode name s = (Ok tt, s).
Proof.
  intros H. unfold bulk_indexing_step. unfold is_json in H. now rewrite H.
Qed.

Lemma for_each_only_json description_dir es_index data_dir query_data
    save_to_file save_to_file_mode names (s : IndexBuilder ES FS) :
  for_each names
    (bulk_indexing_step im os Utils basic_profiler description_dir es_index
       data_dir query_data save_to_file save_to_file_mode) s
  = for_each (filter (fun name => is_json name = true) names)
      (bulk_indexing_step im os Utils basic_profiler description_dir es_index
         data_dir query_data save_to_file save_to_file_mode) s.
Proof.
  revert s. induction names as [|name names IH]; intros s; [reflexivity|].
  destruct (is_json name) eqn:Hjson.
  - rewrite filter_cons_True by exact Hjson. simpl.
    apply bind_ext. intros _ s1. apply IH.
  - rewrite filter_cons_False by (rewrite Hjson; discriminate). simpl.
    rewrite (bind_Ok _ _ s tt s); [apply IH|].
    now apply bulk_indexing_step_skips.
Qed.

(** [bulk_indexing] looks at the names that end in [.json] and at no
    other: a listing gives the outcome that its [.json] names alone give,
    so a directory without any is checked, listed and left. *)
Theorem bulk_indexing_takes_json_names_only description_dir es_index
    data_dir query_data save_to_file save_to_file_mode delete_old_es_index
    (self s0 : IndexBuilder ES FS) names :
  _check_es_index im es_index delete_old_es_index self = (Ok tt, s0) ->
  listdir os description_dir (fs s0) = Ok names ->
  bulk_indexing im os Utils basic_profiler description_dir es_index data_dir
    query_data save_to_file save_to_file_mode delete_old_es_index self
  = for_each (filter (fun name => is_json name = true) names)
      (bulk_indexing_step im os Utils basic_profiler description_dir es_index
         data_dir query_data save_to_file save_to_file_mode) s0 /\
  (Forall (fun name => is_json name = false) names ->
   bulk_indexing im os Utils basic_profiler description_dir es_index data_dir
     query_data save_to_file save_to_file_mode delete_old_es_index self
   = (Ok tt, s0)).
Proof.
  intros Hcheck Hlist.
  assert (H : bulk_indexing im os Utils basic_profiler description_dir
                es_index data_dir query_data save_to_file save_to_file_mode
                delete_old_es_index self
              = for_each (filter (fun name => is_json name = true) names)
                  (bulk_indexing_step im os Utils basic_profiler
                     description_dir es_index data_dir query_data
                     save_to_file save_to_file_mode) s0).
  { unfold bulk_indexing. rewrite (bind_Ok _ _ _ _ _ Hcheck).
    rewrite (bind_Ok _ _ s0 names s0);
      [|unfold ask_fs, observe; now rewrite Hlist].
    apply for_each_only_json. }
  split; [exact H|].
  intros Hnone. rewrite H.
  replace (filter (fun name => is_json name = true) names) with (@nil string);
    [reflexivity|].
  symmetry. clear -Hnone. induction Hnone as [|name names Hname _ IH];
    [reflexivity|].
  rewrite filter_cons_False by (rewrite Hname; discriminate). exact IH.
Qed.

Lemma bind_cong {St A B} (m m' : M St A) (k k' : A -> M St B) s :
  m s = m' s -> (forall a s1, k a s1 = k' a s1) -> bind m k s = bind m' k' s.
Proof.
  intros Hm Hk. unfold bind. rewrite Hm.
  destruct (m' s) as [[a|e] s1]; auto.
Qed.

Lemma path_join_truthy a b :
  truthy_str a = true -> truthy_str (path_join a b) = true.
Proof.
  intros Ha. unfold path_join.
  destruct (String.prefix "/" b) eqn:Hb.
  - destruct b; [discriminate Hb|reflexivity].
  - destruct a as [|c a]; [discriminate Ha|].
    destruct (_ || _); reflexivity.
Qed.

(** [indexing] with a non-empty path to data ends where its read phase
    ends, raising. *)
Lemma indexing_with_data_path_raises description_path es_index p query_data
    save_to_file save_to_file_mode delete_old_es_index
    (self : IndexBuilder ES FS) :
  truthy_str p = true ->
  exists e,
    indexing im os Utils basic_profiler description_path es_index (Some p)
      query_data save_to_file save_to_file_mode delete_old_es_index self
    = (Raise e,
       snd (indexing_read im os Utils description_path es_index (Some p)
              delete_old_es_index self)).
Proof.
  intros Hp. rewrite indexing_phases. unfold bind.
  destruct (indexing_read _ _ _ _ _ _ _ self) as [[[d data]|e] s1] eqn:Hr;
    [|now exists e].
  destruct (indexing_read_inv _ _ _ _ _ _ _ _ _ _ Hr) as [s0 Hread].
  destruct (read_data_with_path _ _ _ _ _ _ _ _ Hp Hread) as [df ->].
  eexists. reflexivity.
Qed.

(** [bulk_indexing] with a data directory indexes nothing: the first
    description file it meets gets a path to data, its [indexing] raises,
    and the batch ends there with no document created and the file
    system untouched. *)
Theorem bulk_indexing_with_data_dir_indexes_nothing description_dir es_index
    data_dir query_data save_to_file save_to_file_mode delete_old_es_index
    (self s0 : IndexBuilder ES FS) skipped name rest :
  truthy_str data_dir = true ->
  _check_es_index im es_index delete_old_es_index self = (Ok tt, s0) ->
  listdir os description_dir (fs s0) = Ok (skipped ++ name :: rest) ->
  Forall (fun n => is_json n = false) skipped ->
  is_json name = true ->
  exists e s',
    bulk_indexing im os Utils basic_profiler description_dir es_index
      (Some data_dir) query_data save_to_file save_to_file_mode
      delete_old_es_index self = (Raise e, s') /\
    fs s' = fs self /\
    es s' = es (snd (_check_es_index im es_index false s0)).
Proof.
  intros Hdir Hcheck Hlist Hskipped Hname.
  set (data_path := path_join data_dir
                      (str_replace name "_description.json" ".csv")).
  destruct (indexing_with_data_path_raises
              (path_join description_dir name) es_index data_path query_data
              save_to_file save_to_file_mode false s0
              (path_join_truthy _ _ Hdir)) as [e He].
  set (s' := snd (indexing_read im os Utils (path_join description_dir name)
                    es_index (Some data_path) false s0)) in *.
  exists e, s'. split; [|split].
  - unfold bulk_indexing. rewrite (bind_Ok _ _ _ _ _ Hcheck).
    rewrite (bind_Ok _ _ s0 (skipped ++ name :: rest) s0);
      [|unfold ask_fs, observe; now rewrite Hlist].
    apply for_each_stops with (s1 := s0).
    + clear -Hskipped. induction Hskipped as [|n skipped Hn _ IH];
        [reflexivity|].
      simpl. rewrite (bind_Ok _ _ s0 tt s0); [exact IH|].
      now apply bulk_indexing_step_skips.
    + unfold bulk_indexing_step. unfold is_json in Hname.
      rewrite Hname, Hdir. apply bind_Raise. exact He.
  - subst s'.
    rewrite (preserves_indexing_read im os Utils fs _ _ _ _
               (fun _ _ => eq_refl) (fun _ _ => eq_refl)
               (fun _ _ => eq_refl) s0).
    exact (preserves_run fs _ _ _ _
             (preserves_check_es_index im fs _ _ (fun _ _ => eq_refl))
             Hcheck).
  - subst s'. apply indexing_read_es.
Qed.

(** The materializer is consulted only on request: with the flag unset,
    [indexing] and [updating] do what they do with any other
    materializer. *)
Theorem materializer_only_on_request materializer description_path es_index
    data_path save_to_file save_to_file_mode delete_old_es_index document_id
    (self : IndexBuilder ES FS) :
  indexing im os (with_materialize materializer Utils) basic_profiler
    description_path es_index data_path false save_to_file save_to_file_mode
    delete_old_es_index self
  = indexing im os Utils basic_profiler description_path es_index data_path
      false save_to_file save_to_file_mode delete_old_es_index self /\
  updating im os (with_materialize materializer Utils) basic_profiler
    description_path es_index document_id data_path false self
  = updating im os Utils basic_profiler description_path es_index
      document_id data_path false self.
Proof.
  assert (Hmat : forall d data (s : IndexBuilder ES FS),
            materialize_if_asked (with_materialize materializer Utils) d data
              false s
            = materialize_if_asked Utils d data false s).
  { intros d data s. unfold materialize_if_asked, bind, lift.
    destruct (not_data data) as [[|]|e]; reflexivity. }
  split.
  - rewrite !indexing_phases.
    change (indexing_read im os (with_materialize materializer Utils))
      with (indexing_read im os Utils).
    apply bind_ext. intros read s1.
    apply bind_cong; [apply Hmat|intros data s2; reflexivity].
  - rewrite !updating_phases.
    change (updating_read im os (with_materialize materializer Utils))
      with (updating_read im os Utils).
    apply bind_ext. intros read s1.
    apply bind_cong; [apply Hmat|intros data s2; reflexivity].
Qed.

End PersistenceProperties.

(** ** [Augment]: empty criteria, the column criterion, the joiner cache *)

Section AugmentProperties.
Context {Q float : Type}.
Variable qm : QueryManager Q float.
Variable support : JoinSupport.

(** A criterion that is given but empty is no criterion: an empty query
    string, a dataset or variable id of 0 and an empty list of pairs are
    dropped, whatever the other criteria are. *)
Theorem query_drops_empty_criteria col ratio query_string start_ end_
    global_id variable_id pairs kw :
  query qm col ratio (Some "") start_ end_ global_id variable_id pairs kw
    = query qm col ratio None start_ end_ global_id variable_id pairs kw /\
  query qm col ratio query_string start_ end_ (Some 0) variable_id pairs kw
    = query qm col ratio query_string start_ end_ None variable_id pairs kw /\
  query qm col ratio query_string start_ end_ global_id (Some 0) pairs kw
    = query qm col ratio query_string start_ end_ global_id None pairs kw /\
  query qm col ratio query_string start_ end_ global_id variable_id (Some [])
      kw
    = query qm col ratio query_string start_ end_ global_id variable_id None
        kw.
Proof. repeat split. Qed.

Lemma unique_elem (col : Series) x : x ∈ unique col <-> x ∈ col.
Proof.
  induction col as [|y col IH]; simpl; [reflexivity|].
  rewrite !elem_of_cons, list_elem_of_filter, IH.
  destruct (decide (x = y)) as [->|Hne]; tauto.
Qed.

Lemma unique_NoDup (col : Series) : NoDup (unique col).
Proof.
  induction col as [|y col IH]; simpl; constructor.
  - rewrite list_elem_of_filter. tauto.
  - now apply NoDup_filter.
Qed.

(** A column is always a criterion, also an empty one: [query] with a
    column never falls back to match-everything.  It searches for a
    conjunction whose last clause asks for the distinct values of the
    column, each once, and it passes the keyword arguments on. *)
Theorem query_compiles_the_column c ratio query_string start_ end_ global_id
    variable_id pairs kw :
  (exists clauses,
     query qm (Some c) ratio query_string start_ end_ global_id variable_id
       pairs kw
     = search qm
         (form_conjunction_query qm
            (clauses
             ++ [match_some_terms_from_variables_array qm (unique c) ratio]))
         kw) /\
  NoDup (unique c) /\
  (forall x, x ∈ unique c <-> x ∈ c).
Proof.
  split; [|split; [apply unique_NoDup|apply unique_elem]].
  unfold query.
  match goal with
  | |- exists clauses, match ?qs ++ [?q] with _ => _ end = _ =>
      exists qs; destruct qs; reflexivity
  end.
Qed.

(** What [join] does to the cache: nothing at other names, nothing at
    its own name when that holds an entry, and [prepare_joiner]'s answer
    there when it held none. *)
Lemma join_cache left_df right_df left_columns right_columns left_metadata
    right_metadata joiner self name :
  joiners (snd (join support left_df right_df left_columns right_columns
                  left_metadata right_metadata joiner self)) !! name
  = if decide (name = joiner) then
      match joiners self !! joiner with
      | Some cached => Some cached
      | None =>
          match prepare_joiner support joiner with
          | Ok prepared => Some prepared
          | Raise _ => None
          end
      end
    else joiners self !! name.
Proof.
  unfold join, bind, get. simpl.
  destruct (joiners self !! joiner) as [cached|] eqn:Hcached; simpl.
  - rewrite Hcached.
    assert (Hgoal : joiners self !! name
                    = if decide (name = joiner) then Some cached
                      else joiners self !! name).
    { destruct (decide (name = joiner)) as [->|]; [exact Hcached|reflexivity]. }
    destruct cached as [j|]; simpl; [|exact Hgoal].
    destruct left_metadata as [m|]; unfold lift, ret; simpl;
      repeat (match goal with
              | |- context [match ?r with Ok _ => _ | Raise _ => _ end] =>
                  destruct r
              end; simpl);
      exact Hgoal.
  - unfold lift.
    destruct (prepare_joiner support joiner) as [prepared|e]; simpl.
    + rewrite lookup_insert_eq.
      assert (Hgoal : <[joiner := prepared]> (joiners self) !! name
                      = if decide (name = joiner) then Some prepared
                        else joiners self !! name).
      { destruct (decide (name = joiner)) as [->|Hne].
        - apply lookup_insert_eq.
        - apply lookup_insert_ne. congruence. }
      destruct prepared as [j|]; simpl; [|exact Hgoal].
      destruct left_metadata as [m|]; unfold ret; simpl;
        repeat (match goal with
                | |- context [match ?r with Ok _ => _ | Raise _ => _ end] =>
                    destruct r
                end; simpl);
        exact Hgoal.
    + destruct (decide (name = joiner)) as [->|]; [exact Hcached|reflexivity].
Qed.

(** The cache is only ever filled: [join] leaves the entries of other
    names alone, never replaces the entry of its own name, and files
    [prepare_joiner]'s answer there when there was none. *)
Theorem join_only_fills_the_cache left_df right_df left_columns right_columns
    left_metadata right_metadata joiner self :
  let after := snd (join support left_df right_df left_columns right_columns
                      left_metadata right_metadata joiner self) in
  (forall name, name <> joiner ->
     joiners after !! name = joiners self !! name) /\
  (forall cached, joiners self !! joiner = Some cached ->
     joiners after !! joiner = Some cached) /\
  (forall prepared,
     joiners self !! joiner = None ->
     prepare_joiner support joiner = Ok prepared ->
     joiners after !! joiner = Some prepared).
Proof.
  intros after. subst after. repeat split.
  - intros name Hne. rewrite join_cache. now destruct (decide (name = joiner)).
  - intros cached Hcached. rewrite join_cache, Hcached.
    now destruct (decide (joiner = joiner)).
  - intros prepared Hnone Hprep. rewrite join_cache, Hnone, Hprep.
    now destruct (decide (joiner = joiner)).
Qed.

(** With an entry for the name in the cache, [join] does not ask
    [prepare_joiner]. *)
Lemma join_cached_ignores_prepare_joiner p left_df right_df left_columns
    right_columns left_metadata right_metadata joiner self :
  is_Some (joiners self !! joiner) ->
  join (with_prepare_joiner p support) left_df right_df left_columns
    right_columns left_metadata right_metadata joiner self
  = join support left_df right_df left_columns right_columns left_metadata
      right_metadata joiner self.
Proof.
  intros [cached Hcached]. unfold join, bind, get. simpl.
  rewrite Hcached. reflexivity.
Qed.

(** A name is resolved once.  After a [join] in which the name was in
    the cache or [prepare_joiner] gave an answer, be it a joiner or
    [None], every later [join] under that name goes by the cache: it is
    what it would be with any other [prepare_joiner].  A missing joiner
    is not looked for again. *)
Theorem joiner_is_resolved_once left_df right_df left_columns right_columns
    left_metadata right_metadata joiner self :
  is_Some (joiners self !! joiner)
  \/ (exists prepared, prepare_joiner support joiner = Ok prepared) ->
  let after := snd (join support left_df right_df left_columns right_columns
                      left_metadata right_metadata joiner self) in
  forall p left_df' right_df' left_columns' right_columns' left_metadata'
         right_metadata',
    join (with_prepare_joiner p support) left_df' right_df' left_columns'
      right_columns' left_metadata' right_metadata' joiner after
    = join support left_df' right_df' left_columns' right_columns'
        left_metadata' right_metadata' joiner after.
Proof.
  intros Hresolved after p left_df' right_df' left_columns' right_columns'
    left_metadata' right_metadata'.
  apply join_cached_ignores_prepare_joiner. subst after.
  rewrite join_cache. destruct (decide (joiner = joiner)); [|congruence].
  destruct (joiners self !! joiner) as [cached|] eqn:Hcached; [eauto|].
  destruct Hresolved as [[cached H]|[prepared ->]]; [discriminate|eauto].
Qed.

End AugmentProperties.

(** ** [default_search_by_csv] *)

Section SearchProperties.
Context {Upload : Type}.
Variable lib : WebLibrary Upload.

(** An empty table is answered with the failure message, whatever is
    asked, as soon as the optional number parses: no query is issued. *)
Theorem search_of_empty_table augument (request : Request Upload) upload df :
  files request !! "file" = Some upload ->
  read_upload lib upload = Ok df ->
  df_empty df = true ->
  default_search_by_csv lib augument request
  = match args request !! "minimum_should_match_for_column" with
    | Some text =>
        match py_int lib text with
        | Ok _ =>
            Done (MessageJson
                    "Failed to create Dataframe from csv, nothing found")
        | Raise e => Fail (PyError e)
        end
    | None =>
        Done (MessageJson "Failed to create Dataframe from csv, nothing found")
    end.
Proof.
  intros Hfile Hread Hempty. unfold default_search_by_csv.
  rewrite Hfile, Hread.
  destruct (args request !! "minimum_should_match_for_column") as [text|];
    simpl; [destruct (py_int lib text); simpl|]; now rewrite ?Hempty.
Qed.

Lemma StronglySorted_snoc (l : list nat) x :
  StronglySorted lt l -> Forall (fun y => (y < x)%nat) l ->
  StronglySorted lt (l ++ [x]).
Proof.
  induction 1 as [|y l Hl IH Hy]; intros Hx; simpl.
  - repeat constructor.
  - apply Forall_cons in Hx as [Hyx Hx]. constructor; [now apply IH|].
    apply Forall_app. split; [exact Hy|]. now repeat constructor.
Qed.

(** One round of the loop leaves the result as it is or adds one entry,
    for the column at hand. *)
Lemma search_column_inv augument df minimum query_string_result idx
    result result' :
  search_column lib augument df minimum query_string_result idx result
    = Done result' ->
  result' = result \/
  exists entry,
    result' = result ++ [entry] /\ column_idx entry = idx /\
    entry_ok lib df query_string_result entry.
Proof.
  unfold search_column, iloc_col.
  destruct (df !! idx) as [column|] eqn:Hcolumn; simpl; [|discriminate].
  destruct (is_object_dtype lib column) eqn:Hobject;
    [|intros [= <-]; now left].
  destruct (query_by_column augument column minimum) as [hits|e]; simpl;
    [|discriminate].
  destruct (truthy_hits hits) eqn:Hhits; [|intros [= <-]; now left].
  destruct hits as [[|hit hits]|]; try discriminate Hhits.
  destruct (truthy_hits query_string_result) eqn:Hqs; simpl.
  - destruct (get_metadata_intersection augument _ _) as [intersection|e];
      simpl; [|discriminate].
    intros [= <-]. right. eexists. split; [reflexivity|]. split; [reflexivity|].
    split; [eauto|congruence].
  - intros [= <-]. right. eexists. split; [reflexivity|]. split; [reflexivity|].
    split; [eauto|]. intros _. simpl. rewrite length_take. lia.
Qed.

Lemma search_columns_shape augument df minimum query_string_result k :
  forall n result result',
    StronglySorted lt (map column_idx result) ->
    Forall (fun entry => (column_idx entry < n)%nat) result ->
    Forall (entry_ok lib df query_string_result) result ->
    search_columns lib augument df minimum query_string_result (seq n k)
      result = Done result' ->
    StronglySorted lt (map column_idx result') /\
    Forall (entry_ok lib df query_string_result) result'.
Proof.
  induction k as [|k IH]; intros n result result' Hsorted Hbound Hok H;
    simpl in H.
  - injection H as <-. auto.
  - destruct (search_column lib augument df minimum query_string_result n
                result) as [result1|e] eqn:Hstep; simpl in H; [|discriminate].
    apply search_column_inv in Hstep
      as [->|(entry & -> & Hidx & Hentry)].
    + apply (IH (S n) result result'); auto.
      eapply Forall_impl; [exact Hbound|]. simpl. intros ? ?. lia.
    + apply (IH (S n) (result ++ [entry]) result'); auto.
      * rewrite map_app. simpl. apply StronglySorted_snoc; [exact Hsorted|].
        apply Forall_fmap. eapply Forall_impl; [exact Hbound|].
        simpl. intros e He. rewrite Hidx. exact He.
      * apply Forall_app. split.
        -- eapply Forall_impl; [exact Hbound|]. simpl. intros ? ?. lia.
        -- constructor; [rewrite Hidx; lia|constructor].
      * apply Forall_app. split; [exact Hok|].
        constructor; [exact Hentry|constructor].
Qed.

(** What a result is made of, for any [Augment]: its entries go by
    strictly growing column index, each for a column of the table that is
    of object dtype, and when no query string is given each holds at
    least one and at most ten datasets. *)
Theorem search_result_shape augument (request : Request Upload) upload df
    message result :
  files request !! "file" = Some upload ->
  read_upload lib upload = Ok df ->
  default_search_by_csv lib augument request = Done (Ret message result) ->
  StronglySorted lt (map column_idx result) /\
  Forall (fun entry =>
            (exists column,
               df !! column_idx entry = Some column /\
               is_object_dtype lib column = true) /\
            (truthy_opt_str (args request !! "query_string") = false ->
             (0 < length (datasets_metadata entry) <= 10)%nat)) result.
Proof.
  intros Hfile Hread H. unfold default_search_by_csv in H.
  rewrite Hfile, Hread in H.
  destruct (match args request !! "minimum_should_match_for_column" with
            | Some text =>
                web_bind (of_result (py_int lib text))
                  (fun n => Done (Some n))
            | None => Done None
            end) as [minimum|e]; simpl in H; [|discriminate].
  destruct (df_empty df); [discriminate|].
  set (qs := args request !! "query_string") in *.
  destruct (match qs with
            | Some s =>
                if truthy_str s
                then query_any_field_with_string augument s
                else Done None
            | None => Done None
            end) as [query_string_result|e] eqn:Hqs; simpl in H;
    [|discriminate].
  destruct (search_columns lib augument df minimum query_string_result
              (range (shape1 df)) []) as [result0|e] eqn:Hloop; simpl in H;
    [|discriminate].
  injection H as _ <-.
  unfold range in Hloop.
  destruct (search_columns_shape augument df minimum query_string_result
              (shape1 df) 0%nat [] result0 (SSorted_nil lt)
              (List.Forall_nil _) (List.Forall_nil _) Hloop)
    as [Hsorted Hok].
  split; [exact Hsorted|].
  eapply Forall_impl; [exact Hok|]. simpl.
  intros entry [Hcolumn Hten]. split; [exact Hcolumn|].
  intros Hnone. apply Hten.
  destruct qs as [s|]; simpl in Hnone.
  - rewrite Hnone in Hqs. now injection Hqs as <-.
  - now injection Hqs as <-.
Qed.




End SearchProperties.

(** ** [wikitables_downloader/utils.py]: durations and feature vectors *)

Lemma string_length_append (a b : string) :
  String.length (a +:+ b) = (String.length a + String.length b)%nat.
Proof. induction a as [|c a IH]; simpl; [reflexivity|]. now rewrite IH. Qed.

Lemma forallb_below (P : Z -> bool) (n : nat) :
  forallb P (map Z.of_nat (seq 0 n)) = true ->
  forall z, 0 <= z < Z.of_nat n -> P z = true.
Proof.
  intros H z Hz. rewrite forallb_forall in H. apply H.
  rewrite <- (Z2Nat.id z) by lia. apply in_map, in_seq. lia.
Qed.

Lemma pad2_length n : 0 <= n < 100 -> String.length (pad2 n) = 2%nat.
Proof.
  intros Hn.
  apply Nat.eqb_eq.
  exact (forallb_below (fun k => (String.length (pad2 k) =? 2)%nat) 100
           eq_refl n Hn).
Qed.

(** Up to 23 hours, filling to eight characters is writing the hours
    with two digits. *)
Lemma zfill_hours h rest :
  0 <= h < 24 -> String.length rest = 6%nat ->
  zfill 8 (py_str_int h +:+ rest) = pad2 h +:+ rest.
Proof.
  intros Hh Hrest.
  assert (Hcases : h = 0 \/ h = 1 \/ h = 2 \/ h = 3 \/ h = 4 \/ h = 5 \/
                   h = 6 \/ h = 7 \/ h = 8 \/ h = 9 \/ h = 10 \/ h = 11 \/
                   h = 12 \/ h = 13 \/ h = 14 \/ h = 15 \/ h = 16 \/
                   h = 17 \/ h = 18 \/ h = 19 \/ h = 20 \/ h = 21 \/
                   h = 22 \/ h = 23) by lia.
  clear Hh.
  repeat (destruct Hcases as [->|Hcases]); try subst h;
    cbv in Hrest |- *; rewrite Hrest; reflexivity.
Qed.

(** A duration of less than a day, in whole seconds, is written as
    hours, minutes and seconds with two digits each: eight characters. *)
Theorem seconds_to_human_within_a_day s :
  0 <= s < 86400 ->
  seconds_to_human s
  = Some (pad2 (s / 3600) +:+ ":" +:+ pad2 (s / 60 mod 60) +:+ ":"
          +:+ pad2 (s mod 60)) /\
  String.length (pad2 (s / 3600) +:+ ":" +:+ pad2 (s / 60 mod 60) +:+ ":"
                 +:+ pad2 (s mod 60)) = 8%nat.
Proof.
  intros Hs.
  assert (Hh : 0 <= s / 3600 < 24).
  { split; [apply Z.div_pos; lia|apply Z.div_lt_upper_bound; lia]. }
  assert (Hm : 0 <= s / 60 mod 60 < 60) by (apply Z.mod_pos_bound; lia).
  assert (Hss : 0 <= s mod 60 < 60) by (apply Z.mod_pos_bound; lia).
  assert (Hrest : String.length (":" +:+ pad2 (s / 60 mod 60) +:+ ":"
                                 +:+ pad2 (s mod 60)) = 6%nat).
  { rewrite !string_length_append, !pad2_length by lia. reflexivity. }
  split.
  - unfold seconds_to_human, str_timedelta. cbv zeta.
    rewrite (Z.div_small s 86400), (Z.mod_small s 86400) by lia.
    rewrite Z.div_div by lia. change (60 * 60) with 3600.
    change ((0 <? -999999999) || (999999999 <? 0)) with false.
    change (0 =? 0) with true. cbv iota.
    f_equal. now apply zfill_hours.
  - rewrite string_length_append, Hrest, pad2_length by lia. reflexivity.
Qed.

Section VectorProperties.
Context {num : Type}.
Variable num_of_int : Z -> num.
Variable abs_diff : num -> num -> num.

Lemma difference_step_inv v2 prefix feat x
    (res0 res1 : gmap string (feature num)) :
  difference_step num_of_int abs_diff v2 prefix (feat, x) res0 = Ok res1 ->
  exists y d,
    v2 !! feat = Some y /\
    difference_of num_of_int abs_diff x y = Some d /\
    res1 = <[prefix +:+ feat := d]> res0.
Proof.
  unfold difference_step. simpl.
  destruct x as [a|a], (v2 !! feat) as [[b|b]|]; intros H;
    try discriminate H; injection H as <-; eauto.
Qed.

Lemma for_fold_difference v2 prefix v1 :
  forall res0 res : gmap string (feature num),
    NoDup (map fst v1) ->
    for_fold v1 (difference_step num_of_int abs_diff v2 prefix) res0
      = Ok res ->
    (forall feat x, (feat, x) ∈ v1 ->
       exists y d,
         v2 !! feat = Some y /\
         difference_of num_of_int abs_diff x y = Some d /\
         res !! (prefix +:+ feat) = Some d) /\
    (forall key,
       Forall (fun feat => key <> prefix +:+ feat) (map fst v1) ->
       res !! key = res0 !! key).
Proof.
  induction v1 as [|[feat0 x0] v1 IH]; intros res0 res Hdup H; simpl in H.
  - injection H as <-. split; [|reflexivity].
    intros feat x Hin. now apply elem_of_nil in Hin.
  - destruct (difference_step num_of_int abs_diff v2 prefix (feat0, x0) res0)
      as [res1|e] eqn:Hstep; [|discriminate].
    apply difference_step_inv in Hstep as (y0 & d0 & Hy0 & Hd0 & ->).
    simpl in Hdup. apply NoDup_cons in Hdup as [Hfresh Hdup].
    destruct (IH _ _ Hdup H) as [Hitems Hother].
    split.
    + intros feat x Hin. apply elem_of_cons in Hin as [[= -> ->]|Hin];
        [|now apply Hitems].
      exists y0, d0. split; [exact Hy0|]. split; [exact Hd0|].
      rewrite Hother; [apply lookup_insert_eq|].
      apply Forall_forall. intros feat Hfeat Heq.
      apply (inj (String.app prefix)) in Heq. subst feat.
      apply Hfresh. now apply list_elem_of_In.
    + intros key Hkey. simpl in Hkey. apply Forall_cons in Hkey as [Hne Hkey].
      rewrite Hother by exact Hkey. apply lookup_insert_ne. congruence.
Qed.

(** [vectors_difference], when it returns: the result has one entry per
    feature of the first vector, under the prefixed name, and no other.
    A text feature gives 1 where the second vector holds the same text
    and 0 where it holds anything else; a number gives the absolute
    difference.  So the second vector has every feature of the first,
    and a number wherever the first has one. *)
Theorem vectors_difference_entries v1 v2 prefix res :
  NoDup (map fst v1) ->
  vectors_difference num_of_int abs_diff v1 v2 prefix = Ok res ->
  (forall feat a, (feat, Cat a) ∈ v1 ->
     exists y,
       v2 !! feat = Some y /\
       res !! (prefix +:+ feat)
       = Some (Num (num_of_int (if cat_eqb a y then 1 else 0)))) /\
  (forall feat a, (feat, Num a) ∈ v1 ->
     exists b,
       v2 !! feat = Some (Num b) /\
       res !! (prefix +:+ feat) = Some (Num (abs_diff a b))) /\
  (forall key, is_Some (res !! key) ->
     exists feat, feat ∈ map fst v1 /\ key = prefix +:+ feat).
Proof.
  intros Hdup H. unfold vectors_difference in H.
  destruct (for_fold_difference _ _ _ _ _ Hdup H) as [Hitems Hother].
  split; [|split].
  - intros feat a Hin.
    destruct (Hitems _ _ Hin) as (y & d & Hy & Hd & Hres).
    simpl in Hd. injection Hd as <-. eauto.
  - intros feat a Hin.
    destruct (Hitems _ _ Hin) as (y & d & Hy & Hd & Hres).
    destruct y as [b|b]; simpl in Hd; [discriminate|].
    injection Hd as <-. eauto.
  - intros key Hsome.
    destruct (decide (Exists (fun feat => key = prefix +:+ feat)
                        (map fst v1))) as [Hex|Hnone].
    + apply Exists_exists in Hex as (feat & Hin & ->). eauto.
    + apply not_Exists_Forall in Hnone; [|intros feat; apply _].
      rewrite (Hother key) in Hsome.
      * rewrite lookup_empty in Hsome. now destruct Hsome.
      * exact Hnone.
Qed.

End VectorProperties.

(** ** The further properties at concrete inputs *)

Module MoreRuns.
Import Sample Fixtures.

(** Updating the document that the first [indexing] created. *)
Lemma updating_keeps_document_id_witness :
  datamart_id (cities_metadata 10000) = 10000 /\
  map v_datamart_id (variables (cities_metadata 10000))
    = map (fun i => Z.of_nat i + 10000 + 1)
        (seq 0 (length (variables (cities_metadata 10000)))) /\
  current_global_index
    (snd (updating im os Utils basic_profiler "descs/b_description.json"
            "idx" 10000 None false indexed_once))
    = current_global_index indexed_once.
Proof.
  apply (updating_keeps_document_id im os Utils basic_profiler
           "descs/b_description.json" "idx" 10000 None false indexed_once);
    [discriminate|vm_compute; reflexivity].
Defined.

(** A fresh builder takes its counter from the empty store. *)
Lemma indexing_resynchronizes_witness :
  exists c,
    current_global_datamart_id im "idx"
      (es (snd (_check_es_index im "idx" false fresh))) = Ok c /\
    datamart_id (cities_metadata 10000)
      = c + self_GLOBAL_INDEX_INTERVAL fresh.
Proof.
  apply (indexing_resynchronizes im os Utils basic_profiler
           "descs/b_description.json" "idx" None false None "a+" false fresh
           indexed_once (cities_metadata 10000));
    [left; reflexivity|vm_compute; reflexivity].
Defined.

Lemma indexing_stores_what_it_returns_witness :
  create_doc im "idx" "_doc" (cities_metadata 10000)
    (datamart_id (cities_metadata 10000))
    (es (snd (_check_es_index im "idx" false fresh)))
    = (Ok tt, es indexed_once) /\
  current_global_index indexed_once
    = Some (datamart_id (cities_metadata 10000)).
Proof.
  apply (indexing_stores_what_it_returns im os Utils basic_profiler
           "descs/b_description.json" "idx" None false None "a+" false fresh
           indexed_once (cities_metadata 10000)).
  vm_compute. reflexivity.
Defined.

(** The store is down: the mirror file holds the record all the same. *)
Lemma mirror_is_written_before_the_store_witness :
  let s1 := snd (indexing_build down_im os Utils basic_profiler
                   "descs/b_description.json" "idx" None false false fresh) in
  let s2 := snd (_save_data os Utils "out.jl" "a+" (cities_metadata 10000)
                   s1) in
  indexing down_im os Utils basic_profiler "descs/b_description.json" "idx"
    None false (Some "out.jl") "a+" false fresh
  = (Raise (ConnectionError "store unreachable"), set_es (es s2) s2) /\
  fs (set_es (es s2) s2) = fs s2.
Proof.
  intros s1 s2.
  apply (mirror_is_written_before_the_store down_im os Utils basic_profiler
           "descs/b_description.json" "idx" None false "out.jl" "a+" false
           fresh s1 s2 (cities_metadata 10000));
    vm_compute; reflexivity.
Defined.

(** The metadata cannot be serialized: the mirror file is left with the
    id line. *)
Lemma unserializable_metadata_leaves_id_line_witness :
  let s1 := snd (indexing_build im os mute_Utils basic_profiler
                   "descs/b_description.json" "idx" None false false fresh) in
  let f3 := <["out.jl" := TextFile ("10000" +:+ newline)]> (fs s1) in
  indexing im os mute_Utils basic_profiler "descs/b_description.json" "idx"
    None false (Some "out.jl") "a+" false fresh
  = (Raise (TypeError "Object of type int64 is not JSON serializable"),
     set_fs f3 s1) /\
  es (set_fs f3 s1) = es s1.
Proof.
  intros s1 f3.
  apply (unserializable_metadata_leaves_id_line im os mute_Utils
           basic_profiler "descs/b_description.json" "idx" None false
           "out.jl" "a+" false fresh s1 (cities_metadata 10000)
           (TypeError "Object of type int64 is not JSON serializable")
           (<["out.jl" := TextFile ""]> (fs s1))
           (<["out.jl" := TextFile "10000"]> (fs s1)) f3);
    vm_compute; reflexivity.
Defined.


(** One declared variable, data without columns. *)
Lemma more_variables_than_columns_raises_witness :
  exists e,
    fst (construct_global_metadata basic_profiler cities (Some []) None
           synced) = Raise e.
Proof.
  apply (more_variables_than_columns_raises basic_profiler cities [] [city]);
    [reflexivity|simpl; lia].
Defined.

(** The same construction: it raises, and the id 10000 is spent. *)
Lemma construct_global_metadata_advances_witness :
  current_global_index
    (snd (construct_global_metadata basic_profiler cities (Some []) None
            synced)) = Some (0 + self_GLOBAL_INDEX_INTERVAL synced) /\
  current_global_index
    (snd (construct_global_metadata basic_profiler cities (Some [])
            (Some 0) synced)) = Some (0 + self_GLOBAL_INDEX_INTERVAL synced).
Proof.
  apply (construct_global_metadata_advances basic_profiler). reflexivity.
Defined.

Lemma unset_counter_cannot_allocate_witness :
  exists e,
    fst (updating im os Utils basic_profiler "descs/b_description.json" "idx"
           0 None false fresh) = Raise e.
Proof.
  exact (proj2 (proj2 (unset_counter_cannot_allocate im os Utils
                         basic_profiler cities None fresh eq_refl))
           "descs/b_description.json" "idx" None false).
Defined.

(** A directory of notes is checked, listed and left. *)
Lemma bulk_indexing_takes_json_names_only_witness :
  bulk_indexing im os Utils basic_profiler "notes" "idx" None false None "a+"
    false fresh_with_notes
  = (Ok tt, snd (_check_es_index im "idx" false fresh_with_notes)).
Proof.
  apply (bulk_indexing_takes_json_names_only im os Utils basic_profiler
           "notes" "idx" None false None "a+" false fresh_with_notes
           (snd (_check_es_index im "idx" false fresh_with_notes))
           ["readme.txt"; "todo.md"]);
    [vm_compute; reflexivity|vm_compute; reflexivity|].
  repeat constructor.
Defined.

(** The batch of the sample with its data directory. *)
Lemma bulk_indexing_with_data_dir_indexes_nothing_witness :
  exists e s',
    bulk_indexing im os Utils basic_profiler "descs" "idx" (Some "data") false
      None "a+" false fresh = (Raise e, s') /\
    fs s' = fs fresh /\
    es s' = es (snd (_check_es_index im "idx" false
                       (snd (_check_es_index im "idx" false fresh)))).
Proof.
  apply (bulk_indexing_with_data_dir_indexes_nothing im os Utils
           basic_profiler "descs" "idx" "data" false None "a+" false fresh
           (snd (_check_es_index im "idx" false fresh)) []
           "b_description.json"
           ["a_description.json"; "d_description.json"]);
    try (vm_compute; reflexivity).
  constructor.
Defined.

(** No joiner goes by the name fuzzy; that is found out once, and a
    [prepare_joiner] that would now build one is not asked. *)
Lemma joiner_is_resolved_once_witness :
  let after := snd (join support city_data [] [[0]] [[0]] None None "fuzzy"
                      Augment_init) in
  join (with_prepare_joiner (fun _ => Ok (Some broken_joiner)) support)
    city_data city_data [[0]] [[0]] None None "fuzzy" after
  = join support city_data city_data [[0]] [[0]] None None "fuzzy" after.
Proof.
  intros after.
  apply (joiner_is_resolved_once support city_data [] [[0]] [[0]] None None
           "fuzzy" Augment_init).
  right. exists None. reflexivity.
Defined.

(** The first [join] under the name default files the joiner that
    [prepare_joiner] built. *)
Lemma join_only_fills_the_cache_witness :
  joiners (snd (join support city_data city_data [[0]] [[0]] None None
                  "default" Augment_init)) !! "default"
  = Some (Some broken_joiner).
Proof.
  exact (proj2 (proj2 (join_only_fills_the_cache support city_data city_data
                         [[0]] [[0]] None None "default" Augment_init))
           (Some broken_joiner) eq_refl eq_refl).
Defined.

(** A table with a header and no rows. *)
Lemma search_of_empty_table_witness :
  default_search_by_csv lib finding_Augment (upload_of [[]])
  = Done (MessageJson "Failed to create Dataframe from csv, nothing found").
Proof.
  exact (search_of_empty_table lib finding_Augment (upload_of [[]]) [[]] [[]]
           eq_refl eq_refl eq_refl).
Defined.

(** A column of numbers and a column of text, with an [Augment] that
    finds something: one entry, for the second column. *)
Lemma search_result_shape_witness :
  let result := [{| column_idx := 1;
                    datasets_metadata := [cities_metadata 10000] |}] in
  StronglySorted lt (map column_idx result) /\
  Forall (fun entry =>
            (exists column,
               mixed !! column_idx entry = Some column /\
               is_object_dtype lib column = true) /\
            (truthy_opt_str (args (upload_of mixed) !! "query_string") = false ->
             (0 < length (datasets_metadata entry) <= 10)%nat)) result.
Proof.
  intros result.
  apply (search_result_shape lib finding_Augment (upload_of mixed) mixed mixed
           "Created Dataframe and finding datasets for augmenting" result);
    reflexivity.
Defined.


(** One hour, two minutes and five seconds. *)
Lemma seconds_to_human_within_a_day_witness :
  seconds_to_human 3725 = Some "01:02:05" /\
  String.length "01:02:05" = 8%nat.
Proof.
  exact (seconds_to_human_within_a_day 3725 ltac:(lia)).
Defined.

(** Two shirts of the same color, two sizes apart. *)
Lemma vectors_difference_entries_witness :
  (forall feat a, (feat, Cat a) ∈ shirt ->
     exists y,
       other_shirt !! feat = Some y /\
       shirt_difference !! ("d_" +:+ feat)
       = Some (Num (if cat_eqb a y then 1 else 0))) /\
  (forall feat a, (feat, Num a) ∈ shirt ->
     exists b,
       other_shirt !! feat = Some (Num b) /\
       shirt_difference !! ("d_" +:+ feat) = Some (Num (int_abs_diff a b))) /\
  (forall key, is_Some (shirt_difference !! key) ->
     exists feat, feat ∈ map fst shirt /\ key = "d_" +:+ feat).
Proof.
  apply (vectors_difference_entries (fun z => z) int_abs_diff shirt
           other_shirt "d_" shirt_difference).
  - simpl. apply NoDup_cons_2; [|apply NoDup_singleton].
    intros H. apply list_elem_of_singleton in H. discriminate H.
  - vm_compute. reflexivity.
Defined.

End MoreRuns.
